(** * Goal lifecycle of the Fibonacci action server

    Shallow embedding of [fib_server.cpp] (class [FibonacciComputer]): the
    three handler routines [handle_goal], [handle_cancel], [handle_accepted]
    and the worker routine [compute], together with the properties of the
    goal lifecycle they implement.

    The C++ code talks to the middleware through a goal handle, the logger
    and [rclcpp::ok()].  These are rendered as operations of a small state
    monad over a [World]; the answers the middleware gives over time are an
    explicit environment [Env].

    The callbacks of the two publisher nodes of the repository follow:
    [ParametricPub] of [parametric_node.cpp] and [Pub] of [pub.cpp], each as
    a function on the state of its node. *)

From Stdlib Require Import ZArith List Bool Lia String.
From Stdlib Require Import DecimalString DecimalN.
Import ListNotations.
Local Open Scope string_scope.
Local Open Scope list_scope.
Local Open Scope Z_scope.

(** * The program

    ** Machine integers

    [goal->order], the loop index [i] and the elements of
    [std::vector<int>] are 32-bit signed integers; they are carried by [Z]
    and every addition the code performs is wrapped. *)
Module Int.

Definition modulus : Z := 4294967296.
Definition min_signed : Z := -2147483648.
Definition max_signed : Z := 2147483647.

Definition wrap (z : Z) : Z := (z - min_signed) mod modulus + min_signed.

Definition add (a b : Z) : Z := wrap (a + b).

Definition in_range (z : Z) : Prop := min_signed <= z <= max_signed.

End Int.

(** ** Messages and enumerations of the action interface *)

(** [rclcpp_action::GoalResponse] *)
Module GoalResponse.
Inductive t : Set := REJECT | ACCEPT_AND_EXECUTE | ACCEPT_AND_DEFER.
End GoalResponse.

(** [rclcpp_action::CancelResponse] *)
Module CancelResponse.
Inductive t : Set := REJECT | ACCEPT.
End CancelResponse.

(** [rclcpp_action::GoalUUID] is a [std::array<uint8_t, 16>]. *)
Definition GoalUUID : Set := list Init.Byte.byte.

(** [Fibonacci::Goal]: the single field [order]. *)
Record Goal : Set := { order : Z }.

(** The part of a goal handle that never changes: [get_goal_id()] and
    [get_goal()]. *)
Record GoalHandle : Set := {
  get_goal_id : GoalUUID;
  get_goal : Goal
}.

(** Lifecycle status of a goal handle. *)
Inductive GoalStatus : Set := EXECUTING | SUCCEEDED | CANCELED | ABORTED.

(** What leaves the server for the client that tracks a goal:
    [Fibonacci::Feedback] with its [partial_sequence], and
    [Fibonacci::Result] with its [sequence] under the status given by the
    terminal operation that carried it. *)
Inductive Message : Set :=
| FeedbackMessage (partial_sequence : list Z)
| ResultMessage (terminal : GoalStatus) (sequence : list Z).

Definition is_result (m : Message) : bool :=
  match m with
  | ResultMessage _ _ => true
  | FeedbackMessage _ => false
  end.

Definition is_feedback (m : Message) : bool := negb (is_result m).

(** One call of an [RCLCPP_INFO], [RCLCPP_WARN] or [RCLCPP_ERROR] macro:
    the format string, the goal id printed for [%s] and the integers printed
    for [%d]. *)
Inductive Severity : Set := INFO | WARN | ERROR.

Record LogRecord : Set := {
  severity : Severity;
  format : string;
  log_uuid : GoalUUID;
  log_args : list Z
}.

(** ** The world the server code acts on *)

Record World : Set := {
  logger : list LogRecord;          (* output of [this->get_logger()], oldest first *)
  cancellation_requested : bool;    (* the cancellation flag of the goal handle *)
  status : GoalStatus;              (* lifecycle status of the goal handle *)
  sent : list Message;              (* feedback and result messages, oldest first *)
  ok_calls : nat;                   (* calls of [rclcpp::ok()] so far *)
  cancel_polls : nat;               (* calls of [is_canceling()] so far *)
  sleeps : nat                      (* calls of [loop_rate.sleep()] so far *)
}.

(** A goal handle as the middleware hands it to [handle_accepted]: executing,
    flag down, nothing sent. *)
Definition fresh (log : list LogRecord) : World :=
  {| logger := log; cancellation_requested := false; status := EXECUTING;
     sent := []; ok_calls := 0; cancel_polls := 0; sleeps := 0 |}.

(** Everything but the logger. *)
Definition beyond_log (w : World)
  : bool * GoalStatus * list Message * nat * nat * nat :=
  (cancellation_requested w, status w, sent w, ok_calls w, cancel_polls w,
   sleeps w).

(** The environment of one goal: what the [n]-th call of [rclcpp::ok()]
    answers, and whether a client's cancellation request reaches the server
    between the worker's polls [n - 1] and [n] of the cancellation flag. *)
Record Env : Type := {
  ok_answer : nat -> bool;
  cancel_arrives : nat -> bool
}.

(** The substrate is live throughout and no client asks for cancellation. *)
Definition calm : Env :=
  {| ok_answer := fun _ => true; cancel_arrives := fun _ => false |}.

(** ** The monad of server code *)

Inductive Outcome (A : Type) : Type :=
| Done (a : A) (w : World)   (* returned [a] *)
| Raised (w : World)         (* a goal handle operation threw *)
| OutOfFuel.                 (* the loop bound of the model was too small *)

Arguments Done {A} a w.
Arguments Raised {A} w.
Arguments OutOfFuel {A}.

Definition M (A : Type) : Type := World -> Outcome A.

Definition ret {A} (a : A) : M A := fun w => Done a w.

Definition bind {A B} (m : M A) (k : A -> M B) : M B :=
  fun w =>
    match m w with
    | Done a w' => k a w'
    | Raised w' => Raised w'
    | OutOfFuel => OutOfFuel
    end.

Declare Scope server_scope.
Delimit Scope server_scope with server.
Notation "x <- m ;; k" := (bind m (fun x => k))
  (at level 61, m at next level, right associativity) : server_scope.
Notation "m ;; k" := (bind m (fun _ => k))
  (at level 61, right associativity) : server_scope.
Local Open Scope server_scope.

Definition returned {A} (o : Outcome A) : option A :=
  match o with
  | Done a _ => Some a
  | _ => None
  end.

Definition final {A} (o : Outcome A) : option World :=
  match o with
  | Done _ w => Some w
  | _ => None
  end.

(** *** Logging *)

Definition RCLCPP_LOG (s : Severity) (fmt : string) (uuid : GoalUUID)
  (args : list Z) : M unit :=
  fun w =>
    Done tt
      {| logger := logger w ++
           [{| severity := s; format := fmt; log_uuid := uuid;
               log_args := args |}];
         cancellation_requested := cancellation_requested w;
         status := status w; sent := sent w; ok_calls := ok_calls w;
         cancel_polls := cancel_polls w; sleeps := sleeps w |}.

Definition RCLCPP_INFO := RCLCPP_LOG INFO.
Definition RCLCPP_WARN := RCLCPP_LOG WARN.
Definition RCLCPP_ERROR := RCLCPP_LOG ERROR.

(** ** The handlers of the admission path *)

(** [FibonacciComputer::handle_goal] *)
Definition handle_goal (uuid : GoalUUID) (goal : Goal)
  : M GoalResponse.t :=
  if order goal >? 20 then
    RCLCPP_ERROR "Received invalid request (%s) of order %d REJECTED"
      uuid [order goal] ;;
    ret GoalResponse.REJECT
  else
    RCLCPP_INFO "Received request (%s) of order %d ACCEPTED"
      uuid [order goal] ;;
    ret GoalResponse.ACCEPT_AND_EXECUTE.

(** [FibonacciComputer::handle_cancel] *)
Definition handle_cancel (goal_handle : GoalHandle)
  : M CancelResponse.t :=
  if order (get_goal goal_handle) <? 10 then
    RCLCPP_ERROR "Received cancellation request for goal (%s) REJECTED"
      (get_goal_id goal_handle) [] ;;
    ret CancelResponse.REJECT
  else
    RCLCPP_WARN "Received cancellation request for goal (%s) ACCEPTED"
      (get_goal_id goal_handle) [] ;;
    ret CancelResponse.ACCEPT.

(** ** The middleware seen from the worker *)

Definition set_flag (w : World) : World :=
  {| logger := logger w; cancellation_requested := true; status := status w;
     sent := sent w; ok_calls := ok_calls w; cancel_polls := cancel_polls w;
     sleeps := sleeps w |}.

Definition deliver (s : GoalStatus) (m : Message) (w : World) : World :=
  {| logger := logger w; cancellation_requested := cancellation_requested w;
     status := s; sent := sent w ++ [m]; ok_calls := ok_calls w;
     cancel_polls := cancel_polls w; sleeps := sleeps w |}.

Definition count_ok (w : World) : World :=
  {| logger := logger w; cancellation_requested := cancellation_requested w;
     status := status w; sent := sent w; ok_calls := S (ok_calls w);
     cancel_polls := cancel_polls w; sleeps := sleeps w |}.

Definition count_poll (w : World) : World :=
  {| logger := logger w; cancellation_requested := cancellation_requested w;
     status := status w; sent := sent w; ok_calls := ok_calls w;
     cancel_polls := S (cancel_polls w); sleeps := sleeps w |}.

Definition count_sleep (w : World) : World :=
  {| logger := logger w; cancellation_requested := cancellation_requested w;
     status := status w; sent := sent w; ok_calls := ok_calls w;
     cancel_polls := cancel_polls w; sleeps := S (sleeps w) |}.

(** Modelled from the spec: the goal registry of the middleware
    ([rclcpp_action], outside the repository).  An inbound cancellation
    request is routed to [handle_cancel]; on acceptance the registry sets
    the cancellation flag of the handle, and that is all it does.  The
    comment in [handle_cancel] says the same: the middleware only attempts
    cancellation, "a flag will be raised and will have to be checked by
    every worker routine". *)
Definition route_cancel (goal_handle : GoalHandle) : M CancelResponse.t :=
  response <- handle_cancel goal_handle ;;
  match response with
  | CancelResponse.ACCEPT => fun w => Done response (set_flag w)
  | CancelResponse.REJECT => ret response
  end.

(** Modelled from the spec: the terminal operations of a goal handle
    ([succeed], [canceled], [abort] of [rclcpp_action::ServerGoalHandle],
    outside the repository).  Each sets the terminal status and delivers
    the result message; a handle that already left [EXECUTING] refuses. *)
Definition terminal (s : GoalStatus) (result : list Z) : M unit :=
  fun w =>
    match status w with
    | EXECUTING => Done tt (deliver s (ResultMessage s result) w)
    | _ => Raised w
    end.

Definition abort : list Z -> M unit := terminal ABORTED.
Definition canceled : list Z -> M unit := terminal CANCELED.
Definition succeed : list Z -> M unit := terminal SUCCEEDED.

(** Modelled from the spec: [publish_feedback] sends a snapshot of the
    feedback message as it is at the call. *)
Definition publish_feedback (partial_sequence : list Z) : M unit :=
  fun w => Done tt (deliver (status w) (FeedbackMessage partial_sequence) w).

(** [loop_rate.sleep()] *)
Definition loop_rate_sleep : M unit := fun w => Done tt (count_sleep w).

Definition out_of_fuel {A} : M A := fun _ => OutOfFuel.

Section Worker.

Variable env : Env.

(** Modelled from the spec: the liveness query [rclcpp::ok()]. *)
Definition rclcpp_ok : M bool :=
  fun w => Done (ok_answer env (ok_calls w)) (count_ok w).

(** A cancellation request that reached the server since the worker's
    previous poll of the flag is routed before the poll reads it. *)
Definition pending_cancel (goal_handle : GoalHandle) : M unit :=
  fun w =>
    if cancel_arrives env (cancel_polls w)
    then (route_cancel goal_handle ;; ret tt) w
    else Done tt w.

(** Modelled from the spec: the cancellation flag query [is_canceling()]. *)
Definition is_canceling (goal_handle : GoalHandle) : M bool :=
  pending_cancel goal_handle ;;
  fun w => Done (cancellation_requested w) (count_poll w).

(** ** The worker *)

(** [sequence.push_back(sequence[i] + sequence[i - 1])] *)
Definition push_next (sequence : list Z) (i : Z) : list Z :=
  sequence ++
  [Int.add (nth (Z.to_nat i) sequence 0) (nth (Z.to_nat (i - 1)) sequence 0)].

(** How control leaves the computation loop: by its condition, or by the
    [return] of the cancellation branch. *)
Inductive LoopExit : Set :=
| Fallthrough (sequence : list Z)
| Returned.

(** The [for] loop of [FibonacciComputer::compute].  [sequence] is a
    reference to [feedback->partial_sequence], so the feedback published
    in an iteration carries the sequence as extended in that iteration. *)
Fixpoint compute_loop (fuel : nat) (goal_handle : GoalHandle) (order i : Z)
  (sequence : list Z) : M LoopExit :=
  continue <- (if i <? order then rclcpp_ok else ret false) ;;
  if continue : bool then
    match fuel with
    | O => out_of_fuel
    | S fuel =>
        canceling <- is_canceling goal_handle ;;
        if canceling : bool then
          let result := sequence in
          canceled result ;;
          RCLCPP_WARN "Computation (%s) CANCELED"
            (get_goal_id goal_handle) [] ;;
          ret Returned
        else
          let sequence := push_next sequence i in
          publish_feedback sequence ;;
          RCLCPP_INFO "Published feedback for goal (%s)"
            (get_goal_id goal_handle) [] ;;
          loop_rate_sleep ;;
          compute_loop fuel goal_handle order (Int.add i 1) sequence
    end
  else ret (Fallthrough sequence).

(** [FibonacciComputer::compute] *)
Definition compute (goal_handle : GoalHandle) : M unit :=
  RCLCPP_INFO "Starting computation for request (%s)"
    (get_goal_id goal_handle) [] ;;
  let feedback : list Z := [] in
  let result : list Z := [] in
  let goal := get_goal goal_handle in
  let order := order goal in
  if order =? 0 then
    abort result ;;
    RCLCPP_ERROR "Request (%s) has invalid order ABORTED"
      (get_goal_id goal_handle) [] ;;
    ret tt
  else
    let sequence := feedback ++ [0] in
    let sequence := sequence ++ [1] in
    exit <- compute_loop (Z.to_nat order) goal_handle order 1 sequence ;;
    match exit with
    | Returned => ret tt
    | Fallthrough sequence =>
        live <- rclcpp_ok ;;
        if live : bool then
          let result := sequence in
          succeed result ;;
          RCLCPP_INFO "Goal (%s) completed" (get_goal_id goal_handle) [] ;;
          ret tt
        else ret tt
    end.

(** [FibonacciComputer::handle_accepted] starts a detached thread that runs
    [compute] on the goal handle; this is the run of that thread. *)
Definition handle_accepted (goal_handle : GoalHandle) : M unit :=
  compute goal_handle.

End Worker.

Definition handle_of (n : Z) : GoalHandle :=
  {| get_goal_id := []; get_goal := {| order := n |} |}.

(** * Vocabulary of the properties *)

(** The sequence after [n] more iterations that start at index [i], and the
    snapshots these iterations publish. *)
Fixpoint grow (n : nat) (i : Z) (sequence : list Z) : list Z :=
  match n with
  | O => sequence
  | S n => grow n (i + 1) (push_next sequence i)
  end.

Fixpoint snapshots (n : nat) (i : Z) (sequence : list Z) : list (list Z) :=
  match n with
  | O => []
  | S n => push_next sequence i :: snapshots n (i + 1) (push_next sequence i)
  end.

Definition feedback_log (goal_handle : GoalHandle) : LogRecord :=
  {| severity := INFO; format := "Published feedback for goal (%s)";
     log_uuid := get_goal_id goal_handle; log_args := [] |}.

(** The world after [n] iterations in which nothing but the step happened. *)
Definition quiet_steps (goal_handle : GoalHandle) (n : nat) (i : Z)
  (sequence : list Z) (w : World) : World :=
  {| logger := logger w ++ repeat (feedback_log goal_handle) n;
     cancellation_requested := cancellation_requested w;
     status := status w;
     sent := sent w ++ map FeedbackMessage (snapshots n i sequence);
     ok_calls := ok_calls w + n;
     cancel_polls := cancel_polls w + n;
     sleeps := sleeps w + n |}.

Definition start_log (goal_handle : GoalHandle) : LogRecord :=
  {| severity := INFO; format := "Starting computation for request (%s)";
     log_uuid := get_goal_id goal_handle; log_args := [] |}.

Definition completed_log (goal_handle : GoalHandle) : LogRecord :=
  {| severity := INFO; format := "Goal (%s) completed";
     log_uuid := get_goal_id goal_handle; log_args := [] |}.

Definition cancel_accepted_log (goal_handle : GoalHandle) : LogRecord :=
  {| severity := WARN;
     format := "Received cancellation request for goal (%s) ACCEPTED";
     log_uuid := get_goal_id goal_handle; log_args := [] |}.

Definition canceled_log (goal_handle : GoalHandle) : LogRecord :=
  {| severity := WARN; format := "Computation (%s) CANCELED";
     log_uuid := get_goal_id goal_handle; log_args := [] |}.

(** Number of iterations of an undisturbed run. *)
Definition steps_of (n_order : Z) : nat := Z.to_nat (n_order - 1).

(** The world an undisturbed run of [k] iterations leaves behind. *)
Definition succeeded_world (h : GoalHandle) (log : list LogRecord) (k : nat)
  : World :=
  {| logger := (log ++ [start_log h]) ++ repeat (feedback_log h) k ++
               [completed_log h];
     cancellation_requested := false;
     status := SUCCEEDED;
     sent := map FeedbackMessage (snapshots k 1 [0; 1]) ++
             [ResultMessage SUCCEEDED (grow k 1 [0; 1])];
     ok_calls := S k;
     cancel_polls := k;
     sleeps := k |}.

(** The world a run leaves behind that was canceled after [k] iterations. *)
Definition canceled_world (h : GoalHandle) (log : list LogRecord) (k : nat)
  : World :=
  {| logger := (log ++ [start_log h]) ++ repeat (feedback_log h) k ++
               [cancel_accepted_log h; canceled_log h];
     cancellation_requested := true;
     status := CANCELED;
     sent := map FeedbackMessage (snapshots k 1 [0; 1]) ++
             [ResultMessage CANCELED (grow k 1 [0; 1])];
     ok_calls := S k;
     cancel_polls := S k;
     sleeps := k |}.

(** All liveness queries numbered from [a] up to but not including [b]
    answered that the substrate is live. *)
Definition live_between (env : Env) (a b : nat) : Prop :=
  forall j, (a <= j < b)%nat -> ok_answer env j = true.

(** How the loop can leave a world [w] in which the goal is executing. *)
Inductive loop_outcome (env : Env) (w : World) : Outcome LoopExit -> Prop :=
| loop_canceled w' fb result :
    sent w' = sent w ++ map FeedbackMessage fb ++
              [ResultMessage CANCELED result] ->
    status w' = CANCELED ->
    (ok_calls w < ok_calls w')%nat ->
    live_between env (ok_calls w) (ok_calls w') ->
    loop_outcome env w (Done Returned w')
| loop_completed w' fb sequence :
    sent w' = sent w ++ map FeedbackMessage fb ->
    status w' = EXECUTING ->
    (ok_calls w <= ok_calls w')%nat ->
    live_between env (ok_calls w) (ok_calls w') ->
    loop_outcome env w (Done (Fallthrough sequence) w')
| loop_shutdown w' fb sequence q :
    sent w' = sent w ++ map FeedbackMessage fb ->
    status w' = EXECUTING ->
    ok_calls w' = S q -> (ok_calls w <= q)%nat ->
    ok_answer env q = false ->
    loop_outcome env w (Done (Fallthrough sequence) w').

(** How a run of [compute] on a fresh goal handle can end. *)
Inductive run_outcome (env : Env) (w' : World) : Prop :=
| run_aborted :
    sent w' = [ResultMessage ABORTED []] -> status w' = ABORTED ->
    ok_calls w' = O ->
    run_outcome env w'
| run_canceled fb result :
    sent w' = map FeedbackMessage fb ++ [ResultMessage CANCELED result] ->
    status w' = CANCELED ->
    live_between env 0 (ok_calls w') ->
    run_outcome env w'
| run_succeeded fb result :
    sent w' = map FeedbackMessage fb ++ [ResultMessage SUCCEEDED result] ->
    status w' = SUCCEEDED ->
    live_between env 0 (ok_calls w') ->
    run_outcome env w'
| run_revived fb result q :
    sent w' = map FeedbackMessage fb ++ [ResultMessage SUCCEEDED result] ->
    status w' = SUCCEEDED ->
    ok_calls w' = S (S q) ->
    ok_answer env q = false -> ok_answer env (S q) = true ->
    run_outcome env w'
| run_abandoned fb q :
    sent w' = map FeedbackMessage fb -> status w' = EXECUTING ->
    ok_calls w' = S q -> ok_answer env q = false ->
    run_outcome env w'.

(** The same environment with every cancellation request removed. *)
Definition without_requests (env : Env) : Env :=
  {| ok_answer := ok_answer env; cancel_arrives := fun _ => false |}.

(** Two outcomes that differ in the logger at most. *)
Definition unaffected {A} (o1 o2 : Outcome A) : Prop :=
  match o1, o2 with
  | Done a w1, Done b w2 => a = b /\ beyond_log w1 = beyond_log w2
  | Raised w1, Raised w2 => beyond_log w1 = beyond_log w2
  | OutOfFuel, OutOfFuel => True
  | _, _ => False
  end.

(** The same goal handle with another order. *)
Definition reordered (h : GoalHandle) (n : Z) : GoalHandle :=
  {| get_goal_id := get_goal_id h; get_goal := {| order := n |} |}.

(** The substrate answers live to every query, and no cancellation request
    ever arrives. *)
Definition live_throughout (env : Env) : Prop :=
  forall j, ok_answer env j = true.

Definition never_requested (env : Env) : Prop :=
  forall j, cancel_arrives env j = false.

Definition cancel_before_poll (k : nat) : Env :=
  {| ok_answer := fun _ => true; cancel_arrives := fun n => Nat.eqb n k |}.

(** Once the substrate has answered that it is not operational, it answers
    so to every later query: a shutdown is not taken back. *)
Definition shutdown_is_final (env : Env) : Prop :=
  forall m n, (m <= n)%nat -> ok_answer env m = false ->
              ok_answer env n = false.

(** The substrate shuts down just before the liveness query number [n]. *)
Definition shutdown_before (n : nat) : Env :=
  {| ok_answer := fun j => Nat.ltb j n; cancel_arrives := fun _ => false |}.

(** The Fibonacci numbers over the integers: [fib 0 = 0], [fib 1 = 1],
    [fib (n + 2) = fib (n + 1) + fib n]. *)
Fixpoint fib_pair (n : nat) : Z * Z :=
  match n with
  | O => (0, 1)
  | S n => let '(a, b) := fib_pair n in (b, a + b)
  end.

Definition fib (n : nat) : Z := fst (fib_pair n).

(** The substrate shuts down, for good, just before liveness query [n]. *)
Definition shuts_down_before (env : Env) (n : nat) : Prop :=
  forall j, ok_answer env j = Nat.ltb j n.

(** * The parametric publisher

    [ParametricPub::param_clbk] and [ParametricPub::pub_routine] of
    [parametric_node.cpp]. *)
Module ParametricPub.

(** [rclcpp::ParameterType] *)
Inductive ParameterType : Set :=
| PARAMETER_NOT_SET
| PARAMETER_BOOL
| PARAMETER_INTEGER
| PARAMETER_DOUBLE
| PARAMETER_STRING
| PARAMETER_BYTE_ARRAY
| PARAMETER_BOOL_ARRAY
| PARAMETER_INTEGER_ARRAY
| PARAMETER_DOUBLE_ARRAY
| PARAMETER_STRING_ARRAY.

Definition type_eqb (a b : ParameterType) : bool :=
  match a, b with
  | PARAMETER_NOT_SET, PARAMETER_NOT_SET
  | PARAMETER_BOOL, PARAMETER_BOOL
  | PARAMETER_INTEGER, PARAMETER_INTEGER
  | PARAMETER_DOUBLE, PARAMETER_DOUBLE
  | PARAMETER_STRING, PARAMETER_STRING
  | PARAMETER_BYTE_ARRAY, PARAMETER_BYTE_ARRAY
  | PARAMETER_BOOL_ARRAY, PARAMETER_BOOL_ARRAY
  | PARAMETER_INTEGER_ARRAY, PARAMETER_INTEGER_ARRAY
  | PARAMETER_DOUBLE_ARRAY, PARAMETER_DOUBLE_ARRAY
  | PARAMETER_STRING_ARRAY, PARAMETER_STRING_ARRAY => true
  | _, _ => false
  end.

(** The value held by an [rclcpp::Parameter].  An integer is an
    [int64_t]; a double is carried by its 64 bits, which the node never
    looks at. *)
Inductive ParameterValue : Set :=
| NotSetValue
| BoolValue (b : bool)
| IntegerValue (v : Z)
| DoubleValue (bits : Z)
| StringValue (s : string)
| ByteArrayValue (l : list Z)
| BoolArrayValue (l : list bool)
| IntegerArrayValue (l : list Z)
| DoubleArrayValue (l : list Z)
| StringArrayValue (l : list string).

(** [rclcpp::Parameter] ([Parameter] is reserved) *)
Record RclParameter : Set := {
  get_name : string;
  get_parameter_value : ParameterValue
}.

Definition get_type (p : RclParameter) : ParameterType :=
  match get_parameter_value p with
  | NotSetValue => PARAMETER_NOT_SET
  | BoolValue _ => PARAMETER_BOOL
  | IntegerValue _ => PARAMETER_INTEGER
  | DoubleValue _ => PARAMETER_DOUBLE
  | StringValue _ => PARAMETER_STRING
  | ByteArrayValue _ => PARAMETER_BYTE_ARRAY
  | BoolArrayValue _ => PARAMETER_BOOL_ARRAY
  | IntegerArrayValue _ => PARAMETER_INTEGER_ARRAY
  | DoubleArrayValue _ => PARAMETER_DOUBLE_ARRAY
  | StringArrayValue _ => PARAMETER_STRING_ARRAY
  end.

(** [as_int()] throws on a parameter that is not an integer: [None]. *)
Definition as_int (p : RclParameter) : option Z :=
  match get_parameter_value p with
  | IntegerValue v => Some v
  | _ => None
  end.

(** [rcl_interfaces::msg::SetParametersResult] *)
Record SetParametersResult : Set := {
  successful : bool;
  reason : string
}.

(** The node: the member [pub_num_] (declared in the header; it is
    assigned from an [int] and read into an [Int64] message), the [%ld]
    lines sent to the logger and the [data] of the messages published, both
    oldest first. *)
Record Node : Set := {
  pub_num_ : Z;
  logged : list (string * Z);
  published : list Z
}.

Definition RCLCPP_INFO (fmt : string) (arg : Z) (node : Node) : Node :=
  {| pub_num_ := pub_num_ node;
     logged := logged node ++ [(fmt, arg)];
     published := published node |}.

Definition publish (data : Z) (node : Node) : Node :=
  {| pub_num_ := pub_num_ node;
     logged := logged node;
     published := published node ++ [data] |}.

Definition assign_pub_num (new_val : Z) (node : Node) : Node :=
  {| pub_num_ := new_val;
     logged := logged node;
     published := published node |}.

(** [ParametricPub::pub_routine] *)
Definition pub_routine (node : Node) : Node :=
  let new_msg_data := pub_num_ node in
  let node := publish new_msg_data node in
  RCLCPP_INFO "Published: %ld" new_msg_data node.

(** The range-based [for] of [param_clbk], entered with the result object
    [res].  [None] stands for an exception of [as_int()]. *)
Fixpoint param_clbk_loop (params : list RclParameter) (res : SetParametersResult)
  (node : Node) : option (SetParametersResult * Node) :=
  match params with
  | [] => Some (res, node)
  | p :: params =>
      if (get_name p =? "number")%string &&
         type_eqb (get_type p) PARAMETER_INTEGER
      then
        match as_int p with
        | None => None
        | Some value =>
            let node :=
              RCLCPP_INFO "Requested parameter change to: %ld" value node in
            let new_val := Int.wrap value in
            if new_val =? 0 then
              Some ({| successful := false;
                       reason := "Callback considers 0 invalid" |}, node)
            else
              let node := assign_pub_num new_val node in
              Some ({| successful := true; reason := "" |}, node)
        end
      else param_clbk_loop params res node
  end.

(** [ParametricPub::param_clbk] *)
Definition param_clbk (params : list RclParameter) (node : Node)
  : option (SetParametersResult * Node) :=
  let res := {| successful := false; reason := "Invalid parameters" |} in
  param_clbk_loop params res node.

(** The parameters [param_clbk] reacts to. *)
Definition is_number (p : RclParameter) : bool :=
  (get_name p =? "number")%string && type_eqb (get_type p) PARAMETER_INTEGER.

Definition number (value : Z) : RclParameter :=
  {| get_name := "number"; get_parameter_value := IntegerValue value |}.

End ParametricPub.

(** A node whose [pub_num_] is 1 and that has not logged or published. *)
Definition sample_node : ParametricPub.Node :=
  {| ParametricPub.pub_num_ := 1; ParametricPub.logged := [];
     ParametricPub.published := [] |}.

(** * The counting publisher

    [Pub::Pub] and [Pub::pub_timer_callback] of [pub.cpp].  The member
    [pub_cnt_] is declared in the header; it is initialised with 0, printed
    with [%lu] and incremented, so it is an unsigned integer, of [bits]
    bits. *)
Module Pub.

Section Width.

Variable bits : N.

(** The node: the counter, the [data] of the messages published and the
    lines sent to the logger with their [%lu] argument, oldest first. *)
Record Node : Set := {
  pub_cnt_ : N;
  published : list string;
  logged : list (string * option N)
}.

(** [std::to_string] of an unsigned integer: its decimal digits. *)
Definition to_string (n : N) : string :=
  NilEmpty.string_of_uint (N.to_uint n).

(** [Pub::Pub] *)
Definition constructed : Node :=
  {| pub_cnt_ := 0;
     published := [];
     logged := [("Publisher initialized", None)] |}.

(** [Pub::pub_timer_callback] *)
Definition pub_timer_callback (node : Node) : Node :=
  let new_data := "Hello " in
  let new_data :=
    String.append new_data (String.append (to_string (pub_cnt_ node)) ".") in
  let new_msg_data := new_data in
  let published := published node ++ [new_msg_data] in
  let pub_cnt := ((pub_cnt_ node + 1) mod 2 ^ bits)%N in
  {| pub_cnt_ := pub_cnt;
     published := published;
     logged := logged node ++ [("Published message %lu", Some pub_cnt)] |}.

(** The node after the timer has fired [n] times. *)
Fixpoint fired (n : nat) (node : Node) : Node :=
  match n with
  | O => node
  | S n => pub_timer_callback (fired n node)
  end.

(** What the callback publishes when the counter is [k]. *)
Definition hello (k : N) : string :=
  String.append "Hello " (String.append (to_string k) ".").

End Width.

End Pub.

(** * Properties *)

(** ** Machine integers *)

Lemma Int_wrap_in_range z : Int.in_range z -> Int.wrap z = z.
Proof.
  unfold Int.in_range, Int.wrap, Int.min_signed, Int.max_signed, Int.modulus;
    intros H.
  rewrite Z.mod_small; lia.
Qed.

Lemma Int_add_exact a b : Int.in_range (a + b) -> Int.add a b = a + b.
Proof. apply Int_wrap_in_range. Qed.

Lemma Int_succ_below i n :
  1 <= i -> i < n -> n <= Int.max_signed -> Int.add i 1 = i + 1.
Proof.
  intros; apply Int_add_exact;
    unfold Int.in_range, Int.min_signed, Int.max_signed in *; lia.
Qed.

(** ** Runs without interference *)

Lemma quiet_steps_0 h i sequence w : quiet_steps h 0 i sequence w = w.
Proof.
  destruct w; unfold quiet_steps; cbn [logger sent ok_calls cancel_polls sleeps
    cancellation_requested status repeat snapshots map].
  now rewrite !app_nil_r, !Nat.add_0_r.
Qed.

Section Quiet.

Variable env : Env.
Variable h : GoalHandle.
Variable n_order : Z.
Hypothesis order_fits : n_order <= Int.max_signed.

Lemma loop_quiet_prefix :
  forall (n fuel : nat) (i : Z) (sequence : list Z) (w : World),
    (forall j, (j < n)%nat -> ok_answer env (ok_calls w + j) = true) ->
    (forall j, (j < n)%nat -> cancel_arrives env (cancel_polls w + j) = false) ->
    cancellation_requested w = false ->
    1 <= i -> ((0 < n)%nat -> i + Z.of_nat n <= n_order) ->
    compute_loop env (n + fuel) h n_order i sequence w =
    compute_loop env fuel h n_order (i + Z.of_nat n) (grow n i sequence)
      (quiet_steps h n i sequence w).
Proof.
  induction n as [|n IH]; intros fuel i sequence w Hok Hreq Hflag Hi Hn.
  - rewrite quiet_steps_0. cbn [Nat.add grow Z.of_nat]. now rewrite Z.add_0_r.
  - cbn [Nat.add compute_loop]. specialize (Hn ltac:(lia)).
    assert (Hlt : (i <? n_order) = true) by (apply Z.ltb_lt; lia).
    unfold bind at 1. rewrite Hlt.
    unfold rclcpp_ok at 1.
    generalize (Hok O ltac:(lia)); rewrite Nat.add_0_r; intros ->.
    unfold bind at 1, is_canceling at 1, bind at 1, pending_cancel at 1.
    cbn [cancel_polls count_ok].
    generalize (Hreq O ltac:(lia)); rewrite Nat.add_0_r; intros ->.
    cbn [cancellation_requested count_ok]. rewrite Hflag.
    cbv beta iota zeta.
    unfold bind at 1, publish_feedback at 1.
    unfold bind at 1, RCLCPP_INFO at 1, RCLCPP_LOG at 1.
    unfold bind at 1, loop_rate_sleep at 1.
    rewrite (Int_succ_below i n_order) by lia.
    rewrite IH.
    + f_equal; [lia | ]. 
      unfold quiet_steps, count_sleep, deliver, count_poll, count_ok, feedback_log.
      cbn [logger sent ok_calls cancel_polls sleeps cancellation_requested
           status repeat snapshots map].
      rewrite <- !app_assoc. cbn [app].
      f_equal; lia.
    + intros j Hj. cbn. generalize (Hok (S j) ltac:(lia)).
      now rewrite Nat.add_succ_r.
    + intros j Hj. cbn. generalize (Hreq (S j) ltac:(lia)).
      now rewrite Nat.add_succ_r.
    + reflexivity || (cbn; assumption).
    + lia.
    + lia.
Qed.

End Quiet.

(** *** The sequence engine *)

Lemma grow_length n : forall i sequence,
  List.length (grow n i sequence) = (List.length sequence + n)%nat.
Proof.
  induction n as [|n IH]; intros i sequence; cbn [grow].
  - lia.
  - rewrite IH. unfold push_next. rewrite List.length_app. cbn [List.length]. lia.
Qed.

Lemma snapshots_length n : forall i sequence,
  List.length (snapshots n i sequence) = n.
Proof.
  induction n as [|n IH]; intros i sequence; cbn [snapshots List.length];
    [reflexivity | now rewrite IH].
Qed.

Lemma grow_add n m : forall i sequence,
  grow (n + m) i sequence = grow m (i + Z.of_nat n) (grow n i sequence).
Proof.
  induction n as [|n IH]; intros i sequence.
  - cbn [Nat.add grow Z.of_nat]. now rewrite Z.add_0_r.
  - cbn [Nat.add grow]. rewrite IH. f_equal. lia.
Qed.

(** Growing only appends. *)
Lemma grow_extends n : forall i sequence,
  exists tail, grow n i sequence = sequence ++ tail /\ List.length tail = n.
Proof.
  induction n as [|n IH]; intros i sequence; cbn [grow].
  - exists []. now rewrite app_nil_r.
  - destruct (IH (i + 1) (push_next sequence i)) as (tail & -> & Hlen).
    unfold push_next. rewrite <- app_assoc. eexists; split; [reflexivity|].
    cbn [app List.length]. now rewrite Hlen.
Qed.

Lemma grow_prefix n m i sequence :
  (n <= m)%nat ->
  firstn (List.length sequence + n) (grow m i sequence) = grow n i sequence.
Proof.
  intros Hle. replace m with (n + (m - n))%nat by lia.
  rewrite grow_add.
  destruct (grow_extends (m - n) (i + Z.of_nat n) (grow n i sequence))
    as (tail & -> & _).
  rewrite <- (grow_length n i sequence).
  rewrite firstn_app, firstn_all, Nat.sub_diag. cbn [firstn].
  now rewrite app_nil_r.
Qed.

(** The [k]-th snapshot is the sequence after [k + 1] steps. *)
Lemma snapshots_nth n : forall k i sequence,
  (k < n)%nat ->
  nth k (snapshots n i sequence) [] = grow (S k) i sequence.
Proof.
  induction n as [|n IH]; intros k i sequence Hk; [lia|].
  destruct k as [|k]; cbn [snapshots nth grow]; [reflexivity|].
  rewrite IH by lia. reflexivity.
Qed.

(** Each appended element is the wrapped sum of the two before it, provided
    the index [i] points at the last element, as it does in [compute]. *)
Lemma grow_recurrence n : forall i sequence k,
  0 <= i -> List.length sequence = S (Z.to_nat i) -> (k < n)%nat ->
  nth (Z.to_nat i + k + 1) (grow n i sequence) 0 =
  Int.add (nth (Z.to_nat i + k) (grow n i sequence) 0)
          (nth (Z.to_nat i + k - 1) (grow n i sequence) 0).
Proof.
  induction n as [|n IH]; intros i sequence k Hi Hlen Hk; [lia|].
  cbn [grow]. destruct k as [|k].
  - destruct (grow_extends n (i + 1) (push_next sequence i))
      as (tail & -> & _).
    assert (Hp : List.length (push_next sequence i) = S (S (Z.to_nat i)))
      by (unfold push_next; rewrite List.length_app; cbn [List.length]; lia).
    rewrite !app_nth1 by lia.
    unfold push_next at 1. rewrite app_nth2 by lia.
    replace (Z.to_nat i + 0 + 1 - List.length sequence)%nat with O by lia.
    cbn [nth]. unfold push_next. rewrite !app_nth1 by lia.
    rewrite Nat.add_0_r. f_equal. f_equal. lia.
  - assert (Hp : List.length (push_next sequence i) = S (Z.to_nat (i + 1)))
      by (unfold push_next; rewrite List.length_app; cbn [List.length]; lia).
    generalize (IH (i + 1) (push_next sequence i) k ltac:(lia) Hp ltac:(lia)).
    replace (Z.to_nat (i + 1)) with (S (Z.to_nat i)) by lia.
    replace (S (Z.to_nat i) + k + 1)%nat with (Z.to_nat i + S k + 1)%nat by lia.
    replace (S (Z.to_nat i) + k)%nat with (Z.to_nat i + S k)%nat by lia.
    replace (Z.to_nat i + S k - 1)%nat with (Z.to_nat i + k)%nat by lia.
    replace (Z.to_nat i + S k - 1)%nat with (Z.to_nat i + k)%nat by lia.
    auto.
Qed.

(** The index the code reads is always inside the vector. *)
Lemma grow_index_in_bounds n i sequence :
  0 <= i -> List.length sequence = S (Z.to_nat i) ->
  (Z.to_nat (i + Z.of_nat n) < List.length (grow n i sequence))%nat.
Proof. intros Hi Hlen. rewrite grow_length. lia. Qed.

(** *** Whole runs *)

Lemma loop_exit_at env fuel h n i sequence w :
  n <= i ->
  compute_loop env fuel h n i sequence w = Done (Fallthrough sequence) w.
Proof.
  intros Hi. destruct fuel; cbn [compute_loop]; unfold bind;
    (replace (i <? n) with false by (symmetry; apply Z.ltb_ge; lia));
    reflexivity.
Qed.

Section Runs.

Variable env : Env.
Variable h : GoalHandle.
Variable log : list LogRecord.

Let n_order : Z := order (get_goal h).

Lemma loop_exit fuel i sequence w :
  n_order <= i ->
  compute_loop env fuel h n_order i sequence w = Done (Fallthrough sequence) w.
Proof. apply loop_exit_at. Qed.

Lemma compute_quiet :
  n_order <> 0 -> n_order <= Int.max_signed ->
  (forall j, (j <= steps_of n_order)%nat -> ok_answer env j = true) ->
  (forall j, (j < steps_of n_order)%nat -> cancel_arrives env j = false) ->
  compute env h (fresh log) = Done tt (succeeded_world h log (steps_of n_order)).
Proof.
  intros Hnz Hfit Hok Hreq. unfold compute. fold n_order.
  unfold bind at 1, RCLCPP_INFO at 1, RCLCPP_LOG at 1.
  replace (n_order =? 0) with false by (symmetry; apply Z.eqb_neq; exact Hnz).
  cbn [app]. unfold bind at 1.
  set (k := steps_of n_order) in *.
  replace (Z.to_nat n_order) with (k + (Z.to_nat n_order - k))%nat
    by (unfold k, steps_of; lia).
  rewrite (loop_quiet_prefix env h n_order Hfit k);
    [ | intros j Hj; apply Hok; cbn; lia
      | intros j Hj; apply Hreq; cbn; lia
      | reflexivity | lia | unfold k, steps_of; lia ].
  rewrite loop_exit by (unfold k, steps_of; lia).
  unfold bind at 1, rclcpp_ok at 1.
  cbn [quiet_steps ok_calls fresh Nat.add].
  rewrite (Hok k) by lia.
  unfold bind, succeed, terminal, RCLCPP_INFO, RCLCPP_LOG, ret.
  cbn [status quiet_steps fresh count_ok].
  unfold succeeded_world, deliver, count_ok.
  cbn [logger sent ok_calls cancel_polls sleeps cancellation_requested status
       fresh quiet_steps app Nat.add].
  rewrite <- !app_assoc. reflexivity.
Qed.

Lemma compute_canceled_after (k : nat) :
  10 <= n_order -> n_order <= Int.max_signed ->
  Z.of_nat k + 1 < n_order ->
  (forall j, (j <= k)%nat -> ok_answer env j = true) ->
  (forall j, (j < k)%nat -> cancel_arrives env j = false) ->
  cancel_arrives env k = true ->
  compute env h (fresh log) = Done tt (canceled_world h log k).
Proof.
  intros Hbig Hfit Hk Hok Hreq Harr. unfold compute. fold n_order.
  unfold bind at 1, RCLCPP_INFO at 1, RCLCPP_LOG at 1.
  replace (n_order =? 0) with false by (symmetry; apply Z.eqb_neq; lia).
  cbn [app]. unfold bind at 1.
  replace (Z.to_nat n_order) with (k + S (Z.to_nat n_order - S k))%nat by lia.
  rewrite (loop_quiet_prefix env h n_order Hfit k);
    [ | intros j Hj; apply Hok; cbn; lia
      | intros j Hj; apply Hreq; cbn; lia
      | reflexivity | lia | lia ].
  cbn [compute_loop]. unfold bind at 1.
  replace (1 + Z.of_nat k <? n_order) with true
    by (symmetry; apply Z.ltb_lt; lia).
  unfold rclcpp_ok at 1. cbn [quiet_steps ok_calls fresh Nat.add].
  rewrite (Hok k) by lia.
  unfold bind at 1, is_canceling at 1, bind at 1, pending_cancel at 1.
  cbn [cancel_polls count_ok quiet_steps fresh Nat.add]. rewrite Harr.
  unfold bind at 1, route_cancel at 1, bind at 1, handle_cancel at 1.
  fold n_order.
  replace (n_order <? 10) with false by (symmetry; apply Z.ltb_ge; lia).
  unfold bind, RCLCPP_WARN, RCLCPP_LOG, ret, canceled, terminal.
  cbn [status set_flag count_poll count_ok cancellation_requested].
  unfold canceled_world, deliver, count_poll, set_flag, count_ok,
    cancel_accepted_log, canceled_log.
  cbn [logger sent ok_calls cancel_polls sleeps cancellation_requested status
       fresh quiet_steps app Nat.add].
  rewrite <- !app_assoc. reflexivity.
Qed.

End Runs.

(** ** Runs under an arbitrary environment *)

Lemma is_canceling_frame env h w :
  exists b w1,
    is_canceling env h w = Done b w1 /\
    status w1 = status w /\ sent w1 = sent w /\ ok_calls w1 = ok_calls w /\
    sleeps w1 = sleeps w /\ cancel_polls w1 = S (cancel_polls w).
Proof.
  unfold is_canceling, bind at 1, pending_cancel.
  destruct (cancel_arrives env (cancel_polls w)).
  - unfold bind at 1, route_cancel, bind at 1, handle_cancel.
    destruct (order (get_goal h) <? 10);
      unfold bind, RCLCPP_ERROR, RCLCPP_WARN, RCLCPP_LOG, ret;
      eexists; eexists; (split; [reflexivity|]); cbn; auto.
  - eexists; eexists; (split; [reflexivity|]); cbn; auto.
Qed.

Section General.

Variable env : Env.
Variable h : GoalHandle.
Variable n_order : Z.
Hypothesis order_fits : n_order <= Int.max_signed.

Lemma loop_general :
  forall (fuel : nat) (i : Z) (sequence : list Z) (w : World),
    status w = EXECUTING -> 1 <= i -> n_order - i <= Z.of_nat fuel ->
    loop_outcome env w (compute_loop env fuel h n_order i sequence w).
Proof.
  induction fuel as [|fuel IH]; intros i sequence w Hst Hi Hfuel.
  - rewrite loop_exit_at by lia.
    apply loop_completed with (fb := []); cbn [map];
      [now rewrite app_nil_r | assumption | lia | intros j Hj; lia].
  - cbn [compute_loop]. unfold bind at 1.
    destruct (i <? n_order) eqn:Hlt.
    2:{ apply loop_completed with (fb := []); cbn [map];
          [now rewrite app_nil_r | assumption | lia | intros j Hj; lia]. }
    apply Z.ltb_lt in Hlt. unfold rclcpp_ok at 1.
    destruct (ok_answer env (ok_calls w)) eqn:Hok.
    2:{ apply loop_shutdown with (fb := []) (q := ok_calls w); cbn [map];
          [now rewrite app_nil_r | assumption | reflexivity | lia
          | assumption]. }
    unfold bind at 1.
    destruct (is_canceling_frame env h (count_ok w))
      as (b & w1 & -> & Hst1 & Hsent1 & Hok1 & _ & _).
    cbn [status sent ok_calls count_ok] in Hst1, Hsent1, Hok1.
    destruct b.
    + unfold bind, canceled, terminal, RCLCPP_WARN, RCLCPP_LOG, ret.
      rewrite Hst1, Hst.
      apply loop_canceled with (fb := []) (result := sequence);
        cbn [map app sent status ok_calls deliver];
        [now rewrite Hsent1 | reflexivity | lia | ].
      intros j Hj. rewrite Hok1 in Hj.
      assert (j = ok_calls w) by lia. now subst j.
    + cbv beta iota zeta.
      unfold bind at 1, publish_feedback at 1.
      unfold bind at 1, RCLCPP_INFO at 1, RCLCPP_LOG at 1.
      unfold bind at 1, loop_rate_sleep at 1.
      rewrite (Int_succ_below i n_order) by lia.
      match goal with
      | |- loop_outcome _ _ (compute_loop _ _ _ _ _ ?s ?w2) =>
          specialize (IH (i + 1) s w2); set (w2' := w2) in *
      end.
      assert (Hst2 : status w2' = EXECUTING)
        by (unfold w2'; cbn; now rewrite Hst1).
      assert (Hsent2 : sent w2' =
                sent w ++ [FeedbackMessage (push_next sequence i)])
        by (unfold w2'; cbn; now rewrite Hsent1).
      assert (Hok2 : ok_calls w2' = S (ok_calls w))
        by (unfold w2'; cbn; exact Hok1).
      specialize (IH Hst2 ltac:(lia) ltac:(lia)).
      clearbody w2'.
      inversion IH as [w' fb result Hs Hs' Hlt' Hl Heq
                      | w' fb sequence' Hs Hs' Hle Hl Heq
                      | w' fb sequence' q Hs Hs' Hq Hle Hf Heq].
      * apply loop_canceled
          with (fb := push_next sequence i :: fb) (result := result);
          [ rewrite Hs, Hsent2, <- app_assoc; reflexivity
          | assumption | lia | ].
        intros j Hj. destruct (Nat.eq_dec j (ok_calls w)) as [->|Hne];
          [assumption | apply Hl; lia].
      * apply loop_completed with (fb := push_next sequence i :: fb);
          [ rewrite Hs, Hsent2, <- app_assoc; reflexivity
          | assumption | lia | ].
        intros j Hj. destruct (Nat.eq_dec j (ok_calls w)) as [->|Hne];
          [assumption | apply Hl; lia].
      * apply loop_shutdown
          with (fb := push_next sequence i :: fb) (q := q);
          [ rewrite Hs, Hsent2, <- app_assoc; reflexivity
          | assumption | assumption | lia | assumption ].
Qed.

End General.

Lemma compute_general env h log :
  order (get_goal h) <= Int.max_signed ->
  exists w', compute env h (fresh log) = Done tt w' /\ run_outcome env w'.
Proof.
  intros Hfit. unfold compute.
  unfold bind at 1, RCLCPP_INFO at 1, RCLCPP_LOG at 1.
  destruct (order (get_goal h) =? 0) eqn:Hz.
  - unfold bind, abort, terminal, RCLCPP_ERROR, RCLCPP_LOG, ret.
    cbn [status fresh]. eexists; split; [reflexivity|].
    apply run_aborted; reflexivity.
  - apply Z.eqb_neq in Hz. cbn [app]. unfold bind at 1.
    match goal with
    | |- context [compute_loop env ?f h ?n ?i ?s ?w] =>
        assert (Hloop : loop_outcome env w (compute_loop env f h n i s w))
          by (apply loop_general; [exact Hfit | reflexivity | lia | lia]);
        destruct (compute_loop env f h n i s w) as [exit w1| |]
    end;
      inversion Hloop as [w' fb result Hs Hs' Hlt' Hl Heq
                         | w' fb sequence' Hs Hs' Hle Hl Heq
                         | w' fb sequence' q Hs Hs' Hq Hle Hf Heq]; subst.
    + eexists; split; [reflexivity|].
      apply run_canceled with (fb := fb) (result := result); assumption.
    + unfold bind at 1, rclcpp_ok at 1.
      destruct (ok_answer env (ok_calls w1)) eqn:Hlast.
      * unfold bind, succeed, terminal, RCLCPP_INFO, RCLCPP_LOG, ret.
        cbn [status count_ok]. rewrite Hs'.
        eexists; split; [reflexivity|].
        apply run_succeeded with (fb := fb) (result := sequence');
          cbn [sent status ok_calls deliver count_ok];
          [now rewrite Hs | reflexivity | ].
        intros j Hj. destruct (Nat.eq_dec j (ok_calls w1)) as [->|Hne];
          [assumption | apply Hl; cbn [ok_calls count_ok fresh] in *; lia].
      * unfold ret. eexists; split; [reflexivity|].
        apply run_abandoned with (fb := fb) (q := ok_calls w1);
          cbn [sent status ok_calls count_ok]; auto.
    + unfold bind at 1, rclcpp_ok at 1. rewrite Hq.
      destruct (ok_answer env (S q)) eqn:Hlast.
      * unfold bind, succeed, terminal, RCLCPP_INFO, RCLCPP_LOG, ret.
        cbn [status count_ok]. rewrite Hs'.
        eexists; split; [reflexivity|].
        apply run_revived with (fb := fb) (result := sequence') (q := q);
          cbn [sent status ok_calls deliver count_ok];
          [now rewrite Hs | reflexivity | now rewrite Hq | assumption
          | assumption].
      * unfold ret. eexists; split; [reflexivity|].
        apply run_abandoned with (fb := fb) (q := S q);
          cbn [sent status ok_calls count_ok]; auto.
Qed.

(** ** Runs of goals whose cancellation is refused *)

Lemma beyond_log_inv w1 w2 :
  beyond_log w1 = beyond_log w2 ->
  cancellation_requested w1 = cancellation_requested w2 /\
  status w1 = status w2 /\ sent w1 = sent w2 /\ ok_calls w1 = ok_calls w2 /\
  cancel_polls w1 = cancel_polls w2 /\ sleeps w1 = sleeps w2.
Proof. unfold beyond_log. intros H. injection H. auto 7. Qed.

Lemma route_cancel_short h w :
  order (get_goal h) < 10 ->
  exists w', route_cancel h w = Done CancelResponse.REJECT w' /\
             beyond_log w' = beyond_log w.
Proof.
  intros Hshort. unfold route_cancel, bind at 1, handle_cancel.
  replace (order (get_goal h) <? 10) with true
    by (symmetry; apply Z.ltb_lt; exact Hshort).
  unfold bind, RCLCPP_ERROR, RCLCPP_LOG, ret.
  eexists; split; reflexivity.
Qed.

Lemma is_canceling_short env h w :
  order (get_goal h) < 10 ->
  exists w', is_canceling env h w = Done (cancellation_requested w) w' /\
             beyond_log w' = beyond_log (count_poll w).
Proof.
  intros Hshort. unfold is_canceling, bind at 1, pending_cancel.
  destruct (cancel_arrives env (cancel_polls w)).
  - unfold bind at 1.
    destruct (route_cancel_short h w Hshort) as (w' & -> & Hw').
    unfold ret. apply beyond_log_inv in Hw'.
    destruct Hw' as (Ha & Hb & Hc & Hd & He & Hf). rewrite Ha.
    eexists; split; [reflexivity|].
    unfold beyond_log; cbn [cancellation_requested status sent ok_calls
      cancel_polls sleeps count_poll]. now rewrite Ha, Hb, Hc, Hd, He, Hf.
  - eexists; split; reflexivity.
Qed.

Section Short.

Variable env : Env.
Variable h : GoalHandle.
Hypothesis short : order (get_goal h) < 10.

Lemma loop_unaffected :
  forall (fuel : nat) (i : Z) (sequence : list Z) (w1 w2 : World),
    beyond_log w1 = beyond_log w2 ->
    cancellation_requested w1 = false ->
    unaffected
      (compute_loop env fuel h (order (get_goal h)) i sequence w1)
      (compute_loop (without_requests env) fuel h (order (get_goal h)) i
         sequence w2).
Proof.
  induction fuel as [|fuel IH]; intros i sequence w1 w2 Hsame Hflag;
    cbn [compute_loop]; unfold bind, rclcpp_ok, ret, out_of_fuel;
    cbn [without_requests ok_answer];
    destruct (beyond_log_inv _ _ Hsame) as (Hf & Hs & Hm & Ho & Hp & Hz);
    (destruct (i <? order (get_goal h)); [ | cbn; now split ]);
    rewrite <- Ho;
    (destruct (ok_answer env (ok_calls w1));
     [ | cbn; split; [reflexivity|]; unfold beyond_log; cbn;
         now rewrite Hf, Hs, Hm, Ho, Hp, Hz ]).
  - exact I.
  - destruct (is_canceling_short env h (count_ok w1) short)
      as (v1 & -> & Hv1).
    destruct (is_canceling_short (without_requests env) h (count_ok w2) short)
      as (v2 & -> & Hv2).
    cbn [cancellation_requested count_ok]. rewrite <- Hf, Hflag.
    unfold publish_feedback, RCLCPP_INFO, RCLCPP_LOG, loop_rate_sleep.
    apply IH.
    + apply beyond_log_inv in Hv1, Hv2.
      cbn [cancellation_requested status sent ok_calls cancel_polls sleeps
           count_poll count_ok] in Hv1, Hv2.
      destruct Hv1 as (A1 & B1 & C1 & D1 & E1 & F1).
      destruct Hv2 as (A2 & B2 & C2 & D2 & E2 & F2).
      unfold beyond_log.
      cbn [cancellation_requested status sent ok_calls cancel_polls sleeps
           count_sleep deliver].
      rewrite A1, B1, C1, D1, E1, F1, A2, B2, C2, D2, E2, F2.
      now rewrite Hf, Hs, Hm, Ho, Hp, Hz.
    + apply beyond_log_inv in Hv1.
      cbn [cancellation_requested count_sleep deliver count_poll count_ok]
        in *.
      destruct Hv1 as (-> & _). exact Hflag.
Qed.

Lemma compute_unaffected (log : list LogRecord) :
  unaffected (compute env h (fresh log))
             (compute (without_requests env) h (fresh log)).
Proof.
  unfold compute, bind, RCLCPP_INFO, RCLCPP_LOG, rclcpp_ok, ret.
  destruct (order (get_goal h) =? 0).
  - cbn. split; reflexivity.
  - cbn [app without_requests ok_answer].
    match goal with
    | |- context [compute_loop env ?f h ?n ?i ?s ?w] =>
        generalize (loop_unaffected f i s w w eq_refl eq_refl);
        destruct (compute_loop env f h n i s w) as [e1 v1| |];
        destruct (compute_loop (without_requests env) f h n i s w)
          as [e2 v2| |]
    end; cbn [unaffected]; try tauto.
    intros [<- Hv]. destruct e1 as [sequence|]; [|now split].
    destruct (beyond_log_inv _ _ Hv) as (Hf & Hs & Hm & Ho & Hp & Hz).
    rewrite <- Ho.
    destruct (ok_answer env (ok_calls v1)).
    + unfold succeed, terminal.
      cbn [status count_ok]. rewrite <- Hs.
      destruct (status v1) eqn:E; cbn [unaffected];
        [split; [reflexivity|] | | | ]; unfold beyond_log; cbn;
        rewrite ?E; congruence.
    + cbn. split; [reflexivity|]. unfold beyond_log. cbn.
      now rewrite Hf, Hs, Hm, Ho, Hp, Hz.
Qed.

End Short.

(** ** Shape of the message stream *)

Lemma snapshots_last_default n : forall i sequence d,
  last (snapshots (S n) i sequence) d = grow (S n) i sequence.
Proof.
  induction n as [|n IH]; intros i sequence d; [reflexivity|].
  change (snapshots (S (S n)) i sequence)
    with (push_next sequence i ::
          snapshots (S n) (i + 1) (push_next sequence i)).
  change (grow (S (S n)) i sequence)
    with (grow (S n) (i + 1) (push_next sequence i)).
  rewrite <- (IH (i + 1) (push_next sequence i) d).
  reflexivity.
Qed.

Lemma snapshots_last n i sequence :
  last (snapshots n i sequence) sequence = grow n i sequence.
Proof. destruct n; [reflexivity | apply snapshots_last_default]. Qed.

Lemma feedback_has_no_result fb :
  filter is_result (map FeedbackMessage fb) = [].
Proof. induction fb as [|s fb IH]; cbn; auto. Qed.

Lemma one_result_count fb s result :
  List.length (filter is_result
                 (map FeedbackMessage fb ++ [ResultMessage s result])) = 1%nat.
Proof. rewrite filter_app, feedback_has_no_result. reflexivity. Qed.

Lemma result_closes fb s result : forall before m after,
  map FeedbackMessage fb ++ [ResultMessage s result] = before ++ m :: after ->
  is_result m = true -> after = [].
Proof.
  induction fb as [|x fb IH]; intros before m after Heq Hm.
  - destruct before as [|b before]; cbn in Heq.
    + now injection Heq.
    + injection Heq as _ Heq. now destruct before.
  - destruct before as [|b before]; cbn in Heq.
    + injection Heq as Hx _. subst m. discriminate.
    + injection Heq as _ Heq. eapply IH; eassumption.
Qed.

Lemma feedback_never_closes fb : forall before m after,
  map FeedbackMessage fb = before ++ m :: after -> is_result m = false.
Proof.
  induction fb as [|x fb IH]; intros before m after Heq.
  - now destruct before.
  - destruct before as [|b before]; cbn in Heq.
    + injection Heq as Hx _. now subst m.
    + injection Heq as _ Heq. eapply IH; eassumption.
Qed.

(** * The goal lifecycle *)

(** C3.  The admission decision is REJECT exactly when the order is above
    20.  Every order from 0 to 20 is accepted for immediate execution and no
    request is ever deferred.  The decision is a function of the request
    alone: it is the same for every goal id and every state of the server,
    and taking it changes nothing but the log. *)
Theorem handle_goal_policy :
  forall (uuid : GoalUUID) (goal : Goal) (w : World),
  exists response w',
    handle_goal uuid goal w = Done response w' /\
    (response = GoalResponse.REJECT <-> order goal > 20) /\
    (0 <= order goal <= 20 -> response = GoalResponse.ACCEPT_AND_EXECUTE) /\
    response <> GoalResponse.ACCEPT_AND_DEFER /\
    beyond_log w' = beyond_log w /\
    (forall uuid2 w2, returned (handle_goal uuid2 goal w2) = Some response).
Proof.
  intros uuid goal w. unfold handle_goal.
  destruct (order goal >? 20) eqn:Hgt;
    unfold bind, RCLCPP_ERROR, RCLCPP_INFO, RCLCPP_LOG, ret;
    eexists; eexists; (split; [reflexivity|]).
  - apply Z.gtb_lt in Hgt. repeat split; try lia; try discriminate; auto.
  - assert (Hle : order goal <= 20)
      by (destruct (Z.gtb_spec (order goal) 20); [discriminate | lia]).
    repeat split; try lia; try discriminate; auto.
Qed.

Lemma handle_goal_policy_witness :
  exists response w',
    handle_goal [] {| order := 7 |} (fresh []) = Done response w' /\
    response = GoalResponse.ACCEPT_AND_EXECUTE.
Proof.
  destruct (handle_goal_policy [] {| order := 7 |} (fresh []))
    as (response & w' & Hrun & _ & Hacc & _).
  exists response, w'. split; [exact Hrun|].
  apply Hacc. cbn [order]. lia.
Defined.

(** C7.  A goal of order 0 is aborted at once: whatever the environment
    does, the run ends in ABORTED, the only message sent is the result with
    the default (empty) sequence, no feedback is sent, and neither the
    liveness of the substrate nor the cancellation flag is consulted. *)
Theorem order_zero_aborts :
  forall (env : Env) (h : GoalHandle) (log : list LogRecord),
    order (get_goal h) = 0 ->
    exists w',
      compute env h (fresh log) = Done tt w' /\
      status w' = ABORTED /\
      sent w' = [ResultMessage ABORTED []] /\
      filter is_feedback (sent w') = [] /\
      ok_calls w' = O /\ cancel_polls w' = O /\ sleeps w' = O.
Proof.
  intros env h log Hz. unfold compute. rewrite Hz. cbn [Z.eqb].
  unfold bind, RCLCPP_INFO, RCLCPP_ERROR, RCLCPP_LOG, abort, terminal, ret.
  cbn [status fresh]. eexists; split; [reflexivity|].
  cbn. repeat split; reflexivity.
Qed.

Lemma order_zero_aborts_witness :
  exists w',
    compute calm (handle_of 0) (fresh []) = Done tt w' /\
    status w' = ABORTED /\ sent w' = [ResultMessage ABORTED []].
Proof.
  destruct (order_zero_aborts calm (handle_of 0) [] eq_refl)
    as (w' & Hrun & Hst & Hsent & _).
  exists w'. auto.
Defined.

(** C8.  A goal of order 1 is admitted, and with the substrate live its run
    performs no iteration (the flag is never polled, nothing is published,
    the worker never sleeps) and ends at once in SUCCEEDED with the seed
    [0; 1] as result. *)
Theorem order_one_succeeds_with_seed :
  forall (env : Env) (h : GoalHandle) (log : list LogRecord) (w0 : World),
    order (get_goal h) = 1 ->
    ok_answer env 0 = true ->
    returned (handle_goal (get_goal_id h) (get_goal h) w0) =
      Some GoalResponse.ACCEPT_AND_EXECUTE /\
    exists w',
      compute env h (fresh log) = Done tt w' /\
      status w' = SUCCEEDED /\
      sent w' = [ResultMessage SUCCEEDED [0; 1]] /\
      filter is_feedback (sent w') = [] /\
      cancel_polls w' = O /\ sleeps w' = O.
Proof.
  intros env h log w0 Hone Hlive. split.
  - unfold handle_goal. rewrite Hone. reflexivity.
  - exists (succeeded_world h log (steps_of (order (get_goal h)))). split.
    + apply compute_quiet; rewrite Hone; cbn; try lia; try discriminate.
      * intros j Hj. replace j with O by lia. exact Hlive.
    + rewrite Hone. cbn. repeat split; reflexivity.
Qed.

Lemma order_one_succeeds_with_seed_witness :
  exists w',
    compute calm (handle_of 1) (fresh []) = Done tt w' /\
    sent w' = [ResultMessage SUCCEEDED [0; 1]].
Proof.
  destruct (order_one_succeeds_with_seed calm (handle_of 1) [] (fresh [])
              eq_refl eq_refl) as (_ & w' & Hrun & _ & Hsent & _).
  exists w'. auto.
Defined.

(** With an order other than 0 and below 2 the loop is not entered. *)
Lemma compute_no_iteration env h w :
  order (get_goal h) <> 0 -> order (get_goal h) <= 1 ->
  compute env h w =
  (RCLCPP_INFO "Starting computation for request (%s)" (get_goal_id h) [] ;;
   live <- rclcpp_ok env ;;
   if live : bool then
     succeed [0; 1] ;;
     RCLCPP_INFO "Goal (%s) completed" (get_goal_id h) [] ;;
     ret tt
   else ret tt) w.
Proof.
  intros Hnz Hle. unfold compute.
  replace (order (get_goal h) =? 0) with false
    by (symmetry; apply Z.eqb_neq; exact Hnz).
  unfold bind at 1 6, RCLCPP_INFO at 1 3, RCLCPP_LOG at 1 2.
  cbv beta iota. unfold bind at 1. rewrite loop_exit_at by lia.
  reflexivity.
Qed.

(** C10.  A goal of negative order is admitted; its run is the run of the
    same goal with order 1, in every environment: it is not aborted, the
    loop performs no iteration, no feedback is sent, and with the substrate
    live it ends in SUCCEEDED with result [0; 1]. *)
Theorem negative_order_runs_like_order_one :
  forall (env : Env) (h : GoalHandle) (log : list LogRecord) (w0 : World),
    order (get_goal h) < 0 ->
    returned (handle_goal (get_goal_id h) (get_goal h) w0) =
      Some GoalResponse.ACCEPT_AND_EXECUTE /\
    compute env h (fresh log) = compute env (reordered h 1) (fresh log) /\
    exists w',
      compute env h (fresh log) = Done tt w' /\
      status w' <> ABORTED /\
      cancel_polls w' = O /\ sleeps w' = O /\
      filter is_feedback (sent w') = [] /\
      (ok_answer env 0 = true ->
       status w' = SUCCEEDED /\ sent w' = [ResultMessage SUCCEEDED [0; 1]]).
Proof.
  intros env h log w0 Hneg. split; [|split].
  - unfold handle_goal.
    replace (order (get_goal h) >? 20) with false
      by (symmetry; destruct (Z.gtb_spec (order (get_goal h)) 20);
          [lia | reflexivity]).
    reflexivity.
  - rewrite (compute_no_iteration env h) by lia.
    rewrite (compute_no_iteration env (reordered h 1))
      by (cbn [reordered get_goal order]; lia).
    reflexivity.
  - rewrite (compute_no_iteration env h) by lia.
    unfold bind, rclcpp_ok, RCLCPP_INFO, RCLCPP_LOG, succeed, terminal, ret.
    cbn [ok_calls status fresh count_ok].
    destruct (ok_answer env 0);
      (eexists; split; [reflexivity|]); cbn;
      repeat split; try reflexivity; try discriminate.
Qed.

Lemma negative_order_runs_like_order_one_witness :
  compute calm (handle_of (-3)) (fresh []) =
  compute calm (reordered (handle_of (-3)) 1) (fresh []).
Proof.
  refine (proj1 (proj2 (negative_order_runs_like_order_one calm
                          (handle_of (-3)) [] (fresh []) _))).
  cbn [handle_of get_goal order]. lia.
Defined.

(** C2.  An undisturbed run of a goal of order at least 2 starts from the
    seed [0; 1] and takes the steps [i = 1 .. order - 1].  Step [i] appends
    the (wrapped) sum of the elements at [i] and [i - 1] and publishes
    exactly one feedback, the sequence as it then is, of length [i + 2].
    So [order - 1] elements are appended to the two of the seed, in
    [order - 1] iterations, and the run ends in SUCCEEDED. *)
Theorem steps_of_an_undisturbed_run :
  forall (env : Env) (h : GoalHandle) (log : list LogRecord),
    2 <= order (get_goal h) ->
    order (get_goal h) <= Int.max_signed ->
    live_throughout env -> never_requested env ->
    exists w' published final,
      compute env h (fresh log) = Done tt w' /\
      status w' = SUCCEEDED /\
      sent w' = map FeedbackMessage published ++
                [ResultMessage SUCCEEDED final] /\
      Z.of_nat (List.length published) = order (get_goal h) - 1 /\
      Z.of_nat (List.length final) = 2 + (order (get_goal h) - 1) /\
      firstn 2 final = [0; 1] /\
      (forall i, 1 <= i < order (get_goal h) ->
         nth (Z.to_nat (i + 1)) final 0 =
           Int.add (nth (Z.to_nat i) final 0) (nth (Z.to_nat (i - 1)) final 0) /\
         nth (Z.to_nat (i - 1)) published [] =
           firstn (Z.to_nat (i + 2)) final) /\
      Z.of_nat (cancel_polls w') = order (get_goal h) - 1 /\
      Z.of_nat (sleeps w') = order (get_goal h) - 1.
Proof.
  intros env h log Htwo Hfit Hlive Hquiet.
  set (n := order (get_goal h)) in *.
  set (k := steps_of n).
  assert (Hk : Z.of_nat k = n - 1) by (unfold k, steps_of; lia).
  exists (succeeded_world h log k), (snapshots k 1 [0; 1]), (grow k 1 [0; 1]).
  split; [apply compute_quiet; fold n; auto; lia|].
  split; [reflexivity|]. split; [reflexivity|].
  split; [now rewrite snapshots_length|].
  split; [rewrite grow_length; cbn [List.length]; lia|].
  split; [apply (grow_prefix 0 k 1 [0; 1]); lia|].
  split; [|split; cbn [succeeded_world cancel_polls sleeps]; exact Hk].
  intros i Hi. split.
  - generalize (grow_recurrence k 1 [0; 1] (Z.to_nat (i - 1))
                  ltac:(lia) eq_refl ltac:(lia)).
    replace (Z.to_nat 1 + Z.to_nat (i - 1) + 1)%nat with (Z.to_nat (i + 1))
      by lia.
    replace (Z.to_nat 1 + Z.to_nat (i - 1) - 1)%nat with (Z.to_nat (i - 1))
      by lia.
    replace (Z.to_nat 1 + Z.to_nat (i - 1))%nat with (Z.to_nat i) by lia.
    auto.
  - rewrite snapshots_nth by lia.
    rewrite <- (grow_prefix (S (Z.to_nat (i - 1))) k 1 [0; 1]) by lia.
    f_equal. cbn [List.length]. lia.
Qed.

Lemma steps_of_an_undisturbed_run_witness :
  exists w' published final,
    compute calm (handle_of 3) (fresh []) = Done tt w' /\
    sent w' = map FeedbackMessage published ++
              [ResultMessage SUCCEEDED final] /\
    Z.of_nat (List.length published) = 2.
Proof.
  destruct (steps_of_an_undisturbed_run calm (handle_of 3) [])
    as (w' & published & final & Hrun & _ & Hsent & Hlen & _).
  - cbn [handle_of get_goal order]. lia.
  - cbn [handle_of get_goal order]. unfold Int.max_signed. lia.
  - intros j. reflexivity.
  - intros j. reflexivity.
  - exists w', published, final. auto.
Defined.

(** C1, as stated, fails: the undisturbed run of a goal of order 5 does
    not send three feedback messages and the result [0; 1; 1; 2; 3]. *)
Lemma order_five_is_not_five_elements :
  option_map sent (final (compute calm (handle_of 5) (fresh []))) <>
  Some [FeedbackMessage [0; 1; 1];
        FeedbackMessage [0; 1; 1; 2];
        FeedbackMessage [0; 1; 1; 2; 3];
        ResultMessage SUCCEEDED [0; 1; 1; 2; 3]].
Proof. vm_compute. discriminate. Qed.

(** C1, amended.  The undisturbed run of a goal of order 5 sends, in this
    order, feedback with the partial sequences [0; 1; 1], [0; 1; 1; 2],
    [0; 1; 1; 2; 3], [0; 1; 1; 2; 3; 5] and then the result
    [0; 1; 1; 2; 3; 5] under SUCCEEDED.  In general, for an order of at
    least 1, each feedback is one element longer than the one before it
    (the first has three elements), and the result has [order + 1]
    elements. *)
Theorem undisturbed_run_reaches_order_plus_one :
  forall (env : Env) (h : GoalHandle) (log : list LogRecord),
    live_throughout env -> never_requested env ->
    (order (get_goal h) = 5 ->
     exists w',
       compute env h (fresh log) = Done tt w' /\
       status w' = SUCCEEDED /\
       sent w' = [FeedbackMessage [0; 1; 1];
                  FeedbackMessage [0; 1; 1; 2];
                  FeedbackMessage [0; 1; 1; 2; 3];
                  FeedbackMessage [0; 1; 1; 2; 3; 5];
                  ResultMessage SUCCEEDED [0; 1; 1; 2; 3; 5]]) /\
    (1 <= order (get_goal h) <= Int.max_signed ->
     exists w' published final,
       compute env h (fresh log) = Done tt w' /\
       status w' = SUCCEEDED /\
       sent w' = map FeedbackMessage published ++
                 [ResultMessage SUCCEEDED final] /\
       (forall k, (k < List.length published)%nat ->
          List.length (nth k published []) = (k + 3)%nat) /\
       last published [0; 1] = final /\
       Z.of_nat (List.length final) = order (get_goal h) + 1).
Proof.
  intros env h log Hlive Hquiet. split.
  - intros Hfive.
    exists (succeeded_world h log (steps_of (order (get_goal h)))). split.
    + apply compute_quiet; auto; rewrite Hfive; unfold Int.max_signed; lia.
    + rewrite Hfive. split; reflexivity.
  - intros [Hone Hfit].
    set (k := steps_of (order (get_goal h))).
    exists (succeeded_world h log k), (snapshots k 1 [0; 1]),
      (grow k 1 [0; 1]).
    split; [apply compute_quiet; auto; lia|].
    split; [reflexivity|]. split; [reflexivity|].
    split; [|split].
    + intros j Hj. rewrite snapshots_length in Hj.
      rewrite snapshots_nth by assumption.
      rewrite grow_length. cbn [List.length]. lia.
    + apply snapshots_last.
    + rewrite grow_length. cbn [List.length]. unfold k, steps_of. lia.
Qed.

Lemma undisturbed_run_reaches_order_plus_one_witness :
  exists w',
    compute calm (handle_of 5) (fresh []) = Done tt w' /\
    status w' = SUCCEEDED /\
    sent w' = [FeedbackMessage [0; 1; 1];
               FeedbackMessage [0; 1; 1; 2];
               FeedbackMessage [0; 1; 1; 2; 3];
               FeedbackMessage [0; 1; 1; 2; 3; 5];
               ResultMessage SUCCEEDED [0; 1; 1; 2; 3; 5]].
Proof.
  refine (proj1 (undisturbed_run_reaches_order_plus_one calm (handle_of 5) []
                   _ _) _).
  - intros j. reflexivity.
  - intros j. reflexivity.
  - reflexivity.
Defined.

(** C4.  Take a goal of order at least 10 and let the first cancellation
    request reach the server after [k] completed steps, while a step
    boundary is still ahead ([k + 1 < order]).  The request is accepted, the
    poll at that boundary sees the flag, and the run ends there in CANCELED:
    the [k] feedback messages of the completed steps are followed by the
    result and by nothing else, the result is the sequence accumulated so
    far (the last snapshot published, or the seed when [k = 0]) and has
    [k + 2] elements, and no step is taken after the [k]-th. *)
Theorem cancellation_at_a_step_boundary :
  forall (env : Env) (h : GoalHandle) (log : list LogRecord) (k : nat),
    10 <= order (get_goal h) ->
    order (get_goal h) <= Int.max_signed ->
    Z.of_nat k + 1 < order (get_goal h) ->
    (forall j, (j <= k)%nat -> ok_answer env j = true) ->
    (forall j, (j < k)%nat -> cancel_arrives env j = false) ->
    cancel_arrives env k = true ->
    exists w' published result,
      compute env h (fresh log) = Done tt w' /\
      status w' = CANCELED /\
      cancellation_requested w' = true /\
      sent w' = map FeedbackMessage published ++
                [ResultMessage CANCELED result] /\
      List.length published = k /\
      result = last published [0; 1] /\
      List.length result = (k + 2)%nat /\
      sleeps w' = k /\ cancel_polls w' = S k.
Proof.
  intros env h log k Hbig Hfit Hk Hok Hquiet Harr.
  exists (canceled_world h log k), (snapshots k 1 [0; 1]), (grow k 1 [0; 1]).
  split; [apply compute_canceled_after; assumption|].
  split; [reflexivity|]. split; [reflexivity|]. split; [reflexivity|].
  split; [apply snapshots_length|].
  split; [symmetry; apply snapshots_last|].
  split; [rewrite grow_length; cbn [List.length]; lia|].
  split; reflexivity.
Qed.

Lemma cancellation_at_a_step_boundary_witness :
  exists w' published result,
    compute (cancel_before_poll 3) (handle_of 12) (fresh []) = Done tt w' /\
    status w' = CANCELED /\
    sent w' = map FeedbackMessage published ++
              [ResultMessage CANCELED result] /\
    List.length result = 5%nat.
Proof.
  destruct (cancellation_at_a_step_boundary (cancel_before_poll 3)
              (handle_of 12) [] 3)
    as (w' & published & result & Hrun & Hst & _ & Hsent & _ & _ & Hlen & _).
  - cbn [handle_of get_goal order]. lia.
  - cbn [handle_of get_goal order]. unfold Int.max_signed. lia.
  - cbn [handle_of get_goal order]. lia.
  - intros j _. reflexivity.
  - intros j Hj. cbn [cancel_before_poll cancel_arrives].
    apply Nat.eqb_neq. lia.
  - reflexivity.
  - exists w', published, result. auto.
Defined.

(** A goal whose cancellation is refused never has its flag raised, so its
    loop never leaves through the cancellation branch. *)
Lemma loop_short_never_cancels env h :
  order (get_goal h) < 10 ->
  forall (fuel : nat) (i : Z) (sequence : list Z) (w : World),
    cancellation_requested w = false ->
    match compute_loop env fuel h (order (get_goal h)) i sequence w with
    | Done exit w' =>
        cancellation_requested w' = false /\ status w' = status w /\
        exit <> Returned
    | Raised _ => False
    | OutOfFuel => True
    end.
Proof.
  intros Hshort.
  induction fuel as [|fuel IH]; intros i sequence w Hflag;
    cbn [compute_loop]; unfold bind, rclcpp_ok, ret, out_of_fuel;
    (destruct (i <? order (get_goal h));
     [ | repeat split; [assumption | discriminate] ]);
    (destruct (ok_answer env (ok_calls w));
     [ | repeat split; [assumption | discriminate] ]).
  - exact I.
  - destruct (is_canceling_short env h (count_ok w) Hshort)
      as (v & -> & Hv).
    cbn [cancellation_requested count_ok]. rewrite Hflag.
    unfold publish_feedback, RCLCPP_INFO, RCLCPP_LOG, loop_rate_sleep.
    apply beyond_log_inv in Hv.
    cbn [cancellation_requested status sent ok_calls cancel_polls sleeps
         count_poll count_ok] in Hv.
    destruct Hv as (Hf & Hs & _).
    match goal with
    | |- context [compute_loop env fuel h ?n ?j ?s ?v2] =>
        generalize (IH j s v2);
        cbn [cancellation_requested status count_sleep deliver];
        rewrite Hf, Hs; intros Hrec; specialize (Hrec Hflag);
        destruct (compute_loop env fuel h n j s v2)
    end; exact Hrec.
Qed.

Lemma compute_short_never_cancels env h log w' :
  order (get_goal h) < 10 ->
  compute env h (fresh log) = Done tt w' ->
  cancellation_requested w' = false /\ status w' <> CANCELED.
Proof.
  intros Hshort. unfold compute, bind, RCLCPP_INFO, RCLCPP_LOG, ret.
  destruct (order (get_goal h) =? 0).
  - unfold abort, terminal, RCLCPP_ERROR, RCLCPP_LOG. cbn [status fresh].
    intros Heq. injection Heq as <-. cbn. split; [reflexivity|discriminate].
  - cbn [app].
    match goal with
    | |- context [compute_loop env ?f h ?n ?i ?s ?w] =>
        generalize (loop_short_never_cancels env h Hshort f i s w eq_refl);
        destruct (compute_loop env f h n i s w) as [exit v| |]
    end; try discriminate.
    cbn [status]. intros (Hf & Hs & Hexit).
    destruct exit as [sequence|]; [|congruence].
    unfold rclcpp_ok. destruct (ok_answer env (ok_calls v)).
    + unfold succeed, terminal. cbn [status count_ok]. rewrite Hs.
      cbn [fresh status]. intros Heq. injection Heq as <-. cbn.
      split; [assumption|discriminate].
    + intros Heq. injection Heq as <-. cbn. rewrite Hs. cbn.
      split; [assumption|discriminate].
Qed.

(** C5.  A cancellation request is refused exactly when the order of the
    goal is below 10.  A refusal leaves the goal handle as it was, flag
    included, and the run of the goal is, log apart, the run it would have
    had with no cancellation request at all: the flag is never raised and
    the goal is never canceled.  An acceptance raises the flag and touches
    nothing else: the status of the goal, the messages sent and the
    progress of the worker are as before. *)
Theorem cancellation_policy :
  forall (env : Env) (h : GoalHandle) (log : list LogRecord) (w : World),
    order (get_goal h) <= Int.max_signed ->
    exists response w1,
      route_cancel h w = Done response w1 /\
      returned (handle_cancel h w) = Some response /\
      (response = CancelResponse.REJECT <-> order (get_goal h) < 10) /\
      (response = CancelResponse.REJECT ->
         beyond_log w1 = beyond_log w /\
         exists v1 v2,
           compute env h (fresh log) = Done tt v1 /\
           compute (without_requests env) h (fresh log) = Done tt v2 /\
           beyond_log v1 = beyond_log v2 /\
           cancellation_requested v1 = false /\ status v1 <> CANCELED) /\
      (response = CancelResponse.ACCEPT ->
         cancellation_requested w1 = true /\
         status w1 = status w /\ sent w1 = sent w /\
         ok_calls w1 = ok_calls w /\ cancel_polls w1 = cancel_polls w /\
         sleeps w1 = sleeps w).
Proof.
  intros env h log w Hfit.
  unfold route_cancel, bind at 1, handle_cancel.
  destruct (order (get_goal h) <? 10) eqn:Hlt;
    unfold bind, RCLCPP_ERROR, RCLCPP_WARN, RCLCPP_LOG, ret;
    cbv beta iota; eexists; eexists; (split; [reflexivity|]);
    (split; [reflexivity|]).
  - apply Z.ltb_lt in Hlt.
    split; [split; auto|]. split; [|discriminate].
    intros _. split; [reflexivity|].
    destruct (compute_general env h log Hfit) as (v1 & Hv1 & _).
    generalize (compute_unaffected env h Hlt log). rewrite Hv1.
    destruct (compute (without_requests env) h (fresh log)) as [[] v2| |];
      cbn [unaffected]; try tauto.
    intros [_ Hsame]. exists v1, v2.
    destruct (compute_short_never_cancels env h log v1 Hlt Hv1).
    auto.
  - apply Z.ltb_ge in Hlt.
    split; [split; [discriminate | lia]|]. split; [discriminate|].
    intros _. cbn. auto 7.
Qed.

Lemma cancellation_policy_witness :
  exists response w1,
    route_cancel (handle_of 9) (fresh []) = Done response w1 /\
    response = CancelResponse.REJECT /\
    beyond_log w1 = beyond_log (fresh []).
Proof.
  destruct (cancellation_policy (cancel_before_poll 3) (handle_of 9) []
              (fresh []))
    as (response & w1 & Hroute & _ & [_ Hshort] & Hreject & _).
  - cbn [handle_of get_goal order]. unfold Int.max_signed. lia.
  - assert (Hr : response = CancelResponse.REJECT)
      by (apply Hshort; cbn [handle_of get_goal order]; lia).
    exists response, w1. split; [exact Hroute|]. split; [exact Hr|].
    exact (proj1 (Hreject Hr)).
Defined.

(** C6.  Whatever the environment does, the run of an admitted goal
    returns without any terminal operation being refused by the handle, and
    the messages it sent are feedback messages followed by at most one
    result: the handle reaches a terminal status at most once, the status
    it ends in is the one the result carries, and no message follows the
    result. *)
Theorem at_most_one_terminal_message_and_it_is_last :
  forall (env : Env) (h : GoalHandle) (log : list LogRecord) (w0 : World),
    returned (handle_goal (get_goal_id h) (get_goal h) w0) =
      Some GoalResponse.ACCEPT_AND_EXECUTE ->
    exists w' published,
      compute env h (fresh log) = Done tt w' /\
      ((sent w' = map FeedbackMessage published /\ status w' = EXECUTING) \/
       (exists result,
          sent w' = map FeedbackMessage published ++
                    [ResultMessage (status w') result] /\
          status w' <> EXECUTING)) /\
      (List.length (filter is_result (sent w')) <= 1)%nat /\
      (forall before m after,
         sent w' = before ++ m :: after -> is_result m = true -> after = []).
Proof.
  intros env h log w0 Hadm.
  assert (Hfit : order (get_goal h) <= Int.max_signed).
  { revert Hadm. unfold handle_goal.
    destruct (Z.gtb_spec (order (get_goal h)) 20);
      [discriminate | unfold Int.max_signed; lia]. }
  destruct (compute_general env h log Hfit) as (w' & Hrun & Hout).
  exists w'.
  destruct Hout as [Hs Hst _ | fb result Hs Hst _ | fb result Hs Hst _
                   | fb result q Hs Hst _ _ _ | fb q Hs Hst _ _].
  - exists []. split; [exact Hrun|]. rewrite Hs, Hst.
    split; [right; exists []; split; [reflexivity|discriminate]|].
    split; [cbn; lia|]. apply (result_closes [] ABORTED []).
  - exists fb. split; [exact Hrun|]. rewrite Hs, Hst.
    split; [right; exists result; split; [reflexivity|discriminate]|].
    split; [rewrite one_result_count; lia|]. apply result_closes.
  - exists fb. split; [exact Hrun|]. rewrite Hs, Hst.
    split; [right; exists result; split; [reflexivity|discriminate]|].
    split; [rewrite one_result_count; lia|]. apply result_closes.
  - exists fb. split; [exact Hrun|]. rewrite Hs, Hst.
    split; [right; exists result; split; [reflexivity|discriminate]|].
    split; [rewrite one_result_count; lia|]. apply result_closes.
  - exists fb. split; [exact Hrun|]. rewrite Hs, Hst.
    split; [left; split; reflexivity|].
    split; [rewrite feedback_has_no_result; cbn; lia|].
    intros before m after Heq Hm.
    rewrite (feedback_never_closes fb before m after Heq) in Hm.
    discriminate.
Qed.

Lemma at_most_one_terminal_message_and_it_is_last_witness :
  exists w',
    compute (cancel_before_poll 3) (handle_of 12) (fresh []) = Done tt w' /\
    (List.length (filter is_result (sent w')) <= 1)%nat.
Proof.
  destruct (at_most_one_terminal_message_and_it_is_last
              (cancel_before_poll 3) (handle_of 12) [] (fresh []) eq_refl)
    as (w' & published & Hrun & _ & Hone & _).
  exists w'. auto.
Defined.

(** C9.  The run of a goal always returns.  If one of the liveness queries
    it made was answered "not operational", no terminal operation was
    invoked: the goal is left executing and no result was sent.  If all of
    them were answered "live", the goal reached a terminal status and
    exactly one result was sent; so a shutdown of the substrate is the only
    way for a goal to stay without a terminal status.  (The worker asks
    again after leaving the loop, which is why the shutdown has to be
    final.) *)
Theorem shutdown_abandons_the_goal :
  forall (env : Env) (h : GoalHandle) (log : list LogRecord),
    order (get_goal h) <= Int.max_signed ->
    shutdown_is_final env ->
    exists w',
      compute env h (fresh log) = Done tt w' /\
      ((exists j, (j < ok_calls w')%nat /\ ok_answer env j = false) ->
       status w' = EXECUTING /\ filter is_result (sent w') = []) /\
      (live_between env 0 (ok_calls w') ->
       status w' <> EXECUTING /\
       List.length (filter is_result (sent w')) = 1%nat).
Proof.
  intros env h log Hfit Hfinal.
  destruct (compute_general env h log Hfit) as (w' & Hrun & Hout).
  exists w'. split; [exact Hrun|].
  destruct Hout as [Hs Hst Hq | fb result Hs Hst Hl | fb result Hs Hst Hl
                   | fb result q Hs Hst Hq Hf Ht | fb q Hs Hst Hq Hf].
  - split.
    + intros (j & Hj & _). lia.
    + intros _. rewrite Hs, Hst. split; [discriminate|reflexivity].
  - split.
    + intros (j & Hj & Hdown). rewrite Hl in Hdown by lia. discriminate.
    + intros _. rewrite Hs, Hst, one_result_count.
      split; [discriminate|reflexivity].
  - split.
    + intros (j & Hj & Hdown). rewrite Hl in Hdown by lia. discriminate.
    + intros _. rewrite Hs, Hst, one_result_count.
      split; [discriminate|reflexivity].
  - rewrite (Hfinal q (S q)) in Ht by (auto; lia). discriminate.
  - split.
    + intros _. rewrite Hs, feedback_has_no_result. auto.
    + intros Hl. rewrite Hl in Hf by lia. discriminate.
Qed.

Lemma shutdown_abandons_the_goal_witness :
  exists w',
    compute (shutdown_before 2) (handle_of 5) (fresh []) = Done tt w' /\
    status w' = EXECUTING /\ filter is_result (sent w') = [].
Proof.
  destruct (shutdown_abandons_the_goal (shutdown_before 2) (handle_of 5) [])
    as (w' & Hrun & Hdown & _).
  - cbn [handle_of get_goal order]. unfold Int.max_signed. lia.
  - intros m n Hmn. cbn [shutdown_before ok_answer].
    rewrite !Nat.ltb_ge. lia.
  - exists w'. split; [exact Hrun|]. apply Hdown.
    exists 2%nat. split; [|reflexivity].
    revert Hrun. vm_compute. intros Heq. injection Heq as <-.
    cbn [ok_calls]. lia.
Defined.

(** * Further properties of the action server *)

(** ** The numbers computed *)

Lemma fib_pair_snd n : snd (fib_pair (S n)) = fib (S n) + fib n.
Proof.
  unfold fib. cbn [fib_pair]. destruct (fib_pair n) as [a b]. cbn. lia.
Qed.

Lemma fib_step n : fib (S (S n)) = fib (S n) + fib n.
Proof.
  rewrite <- fib_pair_snd. unfold fib. cbn [fib_pair].
  destruct (fib_pair n) as [a b]. reflexivity.
Qed.

Lemma fib_nonneg n : 0 <= fib n /\ 0 <= fib (S n).
Proof.
  induction n as [|n [IH1 IH2]]; [cbn; lia|].
  split; [assumption | rewrite fib_step; lia].
Qed.

Lemma fib_monotone n m : (n <= m)%nat -> fib n <= fib m.
Proof.
  induction 1 as [|m _ IH]; [lia|].
  destruct m as [|m]; [cbn in *; lia|].
  rewrite fib_step. destruct (fib_nonneg m). lia.
Qed.

Lemma fib_table_nth len k :
  (k < len)%nat -> nth k (map fib (seq 0 len)) 0 = fib k.
Proof.
  intros Hk. rewrite (nth_indep _ 0 (fib 0)) by (now rewrite length_map, length_seq).
  rewrite map_nth, seq_nth by assumption. reflexivity.
Qed.

(** As long as the numbers fit an [int], growing the table of Fibonacci
    numbers by the code's step yields the table of Fibonacci numbers. *)
Lemma grow_fib n : forall j,
  (S j + n <= 46)%nat ->
  grow n (Z.of_nat (S j)) (map fib (seq 0 (S (S j)))) =
  map fib (seq 0 (S (S j) + n)).
Proof.
  induction n as [|n IH]; intros j Hj.
  - cbn [grow]. now rewrite Nat.add_0_r.
  - cbn [grow].
    replace (Z.of_nat (S j) + 1) with (Z.of_nat (S (S j))) by lia.
    assert (Hpush : push_next (map fib (seq 0 (S (S j)))) (Z.of_nat (S j)) =
                    map fib (seq 0 (S (S (S j))))).
    { unfold push_next.
      replace (Z.to_nat (Z.of_nat (S j))) with (S j) by lia.
      replace (Z.to_nat (Z.of_nat (S j) - 1)) with j by lia.
      rewrite !fib_table_nth by lia.
      rewrite Int_add_exact.
      - rewrite <- fib_step.
        rewrite (seq_S (S (S j)) 0), map_app. reflexivity.
      - rewrite <- fib_step.
        generalize (fib_monotone (S (S j)) 46 ltac:(lia)).
        destruct (fib_nonneg (S j)) as [_ Hpos].
        change (fib 46) with 1836311903.
        unfold Int.in_range, Int.min_signed, Int.max_signed. lia. }
    rewrite Hpush, IH by lia. f_equal. f_equal. lia.
Qed.

Lemma snapshots_fib k :
  (k <= 45)%nat ->
  snapshots k 1 [0; 1] =
  map (fun j => map fib (seq 0 (j + 3))) (seq 0 k).
Proof.
  intros Hk. apply (nth_ext _ _ [] (map fib (seq 0 (0 + 3)))).
  - now rewrite snapshots_length, length_map, length_seq.
  - intros j Hj. rewrite snapshots_length in Hj.
    rewrite snapshots_nth by assumption.
    rewrite (map_nth (fun j => map fib (seq 0 (j + 3))) (seq 0 k) 0%nat j).
    rewrite seq_nth by assumption.
    change (grow (S j) 1 [0; 1])
      with (grow (S j) (Z.of_nat 1) (map fib (seq 0 2))).
    rewrite (grow_fib (S j) 0) by lia.
    f_equal. f_equal. lia.
Qed.

(** X1.  Up to order 46 no addition of the worker overflows: the
    undisturbed run of a goal of order [n], [1 <= n <= 46], publishes the
    tables of Fibonacci numbers [F0 .. F2], [F0 .. F3], ..., [F0 .. Fn] and
    succeeds with [F0 .. Fn].  This covers every goal the server admits
    (their order is at most 20). *)
Theorem undisturbed_run_computes_fibonacci_numbers :
  forall (env : Env) (h : GoalHandle) (log : list LogRecord),
    1 <= order (get_goal h) <= 46 ->
    live_throughout env -> never_requested env ->
    exists w',
      compute env h (fresh log) = Done tt w' /\
      status w' = SUCCEEDED /\
      sent w' =
        map (fun j => FeedbackMessage (map fib (seq 0 (j + 3))))
            (seq 0 (Z.to_nat (order (get_goal h)) - 1)) ++
        [ResultMessage SUCCEEDED
           (map fib (seq 0 (Z.to_nat (order (get_goal h)) + 1)))].
Proof.
  intros env h log Hn Hlive Hquiet.
  exists (succeeded_world h log (steps_of (order (get_goal h)))).
  split; [apply compute_quiet; auto; unfold Int.max_signed; lia|].
  split; [reflexivity|].
  cbn [sent succeeded_world].
  assert (Hk : steps_of (order (get_goal h)) =
               (Z.to_nat (order (get_goal h)) - 1)%nat)
    by (unfold steps_of; lia).
  rewrite Hk, snapshots_fib, map_map by lia.
  f_equal. f_equal. f_equal.
  change (grow (Z.to_nat (order (get_goal h)) - 1) 1 [0; 1])
    with (grow (Z.to_nat (order (get_goal h)) - 1) (Z.of_nat 1)
            (map fib (seq 0 2))).
  rewrite (grow_fib (Z.to_nat (order (get_goal h)) - 1) 0) by lia.
  f_equal. f_equal. lia.
Qed.

Lemma undisturbed_run_computes_fibonacci_numbers_witness :
  exists w',
    compute calm (handle_of 20) (fresh []) = Done tt w' /\
    In (ResultMessage SUCCEEDED
          [0; 1; 1; 2; 3; 5; 8; 13; 21; 34; 55; 89; 144; 233; 377; 610; 987;
           1597; 2584; 4181; 6765]) (sent w').
Proof.
  destruct (undisturbed_run_computes_fibonacci_numbers calm (handle_of 20) [])
    as (w' & Hrun & _ & Hsent).
  - cbn [handle_of get_goal order]. lia.
  - intros j. reflexivity.
  - intros j. reflexivity.
  - exists w'. split; [exact Hrun|]. rewrite Hsent.
    apply in_or_app. right. left. reflexivity.
Defined.

(** X4.  The goals that are both admitted and cancelable are exactly those
    of order 10 to 20: an admitted goal of order below 10 has every
    cancellation request refused, and no goal of order above 20 ever gets a
    handle to cancel. *)
Theorem cancelable_admitted_goals_have_order_10_to_20 :
  forall (h : GoalHandle) (w1 w2 : World),
    (returned (handle_goal (get_goal_id h) (get_goal h) w1) =
       Some GoalResponse.ACCEPT_AND_EXECUTE /\
     returned (handle_cancel h w2) = Some CancelResponse.ACCEPT) <->
    10 <= order (get_goal h) <= 20.
Proof.
  intros h w1 w2. unfold handle_goal, handle_cancel.
  destruct (Z.gtb_spec (order (get_goal h)) 20) as [Hg|Hg];
    destruct (Z.ltb_spec (order (get_goal h)) 10) as [Hl|Hl];
    cbn; split; intros Hx; try lia;
    try (destruct Hx as [H1 H2]; discriminate); auto.
Qed.

Lemma cancelable_admitted_goals_have_order_10_to_20_witness :
  returned (handle_goal [] {| order := 15 |} (fresh [])) =
    Some GoalResponse.ACCEPT_AND_EXECUTE /\
  returned (handle_cancel (handle_of 15) (fresh [])) =
    Some CancelResponse.ACCEPT.
Proof.
  apply (proj2 (cancelable_admitted_goals_have_order_10_to_20
                  (handle_of 15) (fresh []) (fresh []))).
  cbn [handle_of get_goal order]. lia.
Defined.

(** ** What any run can send *)

Lemma snapshots_prefix m : forall r i sequence,
  firstn m (snapshots (m + r) i sequence) = snapshots m i sequence.
Proof.
  induction m as [|m IH]; intros r i sequence; [reflexivity|].
  cbn [Nat.add snapshots firstn]. now rewrite IH.
Qed.

(** In any environment the loop takes some number [m] of plain steps and
    then leaves, through its condition or through the cancellation branch. *)
Lemma loop_is_a_prefix env h n_order :
  n_order <= Int.max_signed ->
  forall (fuel : nat) (i : Z) (sequence : list Z) (w : World),
    status w = EXECUTING -> 1 <= i -> n_order - i <= Z.of_nat fuel ->
    exists m : nat,
      Z.of_nat m <= Z.max 0 (n_order - i) /\
      match compute_loop env fuel h n_order i sequence w with
      | Done Returned w' =>
          sleeps w' = (sleeps w + m)%nat /\ status w' = CANCELED /\
          sent w' = sent w ++ map FeedbackMessage (snapshots m i sequence) ++
                    [ResultMessage CANCELED (grow m i sequence)]
      | Done (Fallthrough final_sequence) w' =>
          final_sequence = grow m i sequence /\
          sleeps w' = (sleeps w + m)%nat /\ status w' = EXECUTING /\
          sent w' = sent w ++ map FeedbackMessage (snapshots m i sequence)
      | _ => False
      end.
Proof.
  intros Hfit.
  induction fuel as [|fuel IH]; intros i sequence w Hst Hi Hfuel.
  - exists O. rewrite loop_exit_at by lia. split; [lia|].
    cbn [grow snapshots map]. rewrite app_nil_r. auto.
  - cbn [compute_loop]. unfold bind at 1.
    destruct (i <? n_order) eqn:Hlt.
    2:{ exists O. split; [lia|]. cbn [grow snapshots map ret].
        rewrite app_nil_r. auto. }
    apply Z.ltb_lt in Hlt. unfold rclcpp_ok at 1.
    destruct (ok_answer env (ok_calls w)).
    2:{ exists O. split; [lia|].
        cbn [grow snapshots map ret sent status sleeps count_ok].
        rewrite app_nil_r. auto. }
    unfold bind at 1.
    destruct (is_canceling_frame env h (count_ok w))
      as (b & w1 & -> & Hst1 & Hsent1 & _ & Hsl1 & _).
    cbn [status sent sleeps count_ok] in Hst1, Hsent1, Hsl1.
    destruct b.
    + unfold bind, canceled, terminal, RCLCPP_WARN, RCLCPP_LOG, ret.
      rewrite Hst1, Hst. exists O. split; [lia|].
      cbn [status sent sleeps deliver snapshots grow map app].
      rewrite Hsent1, Hsl1. auto.
    + cbv beta iota zeta.
      unfold bind at 1, publish_feedback at 1.
      unfold bind at 1, RCLCPP_INFO at 1, RCLCPP_LOG at 1.
      unfold bind at 1, loop_rate_sleep at 1.
      rewrite (Int_succ_below i n_order) by lia.
      match goal with
      | |- context [compute_loop _ _ _ _ _ ?s ?w2] =>
          specialize (IH (i + 1) s w2); set (w2' := w2) in *
      end.
      assert (Hst2 : status w2' = EXECUTING)
        by (unfold w2'; cbn; now rewrite Hst1).
      assert (Hsent2 : sent w2' =
                sent w ++ [FeedbackMessage (push_next sequence i)])
        by (unfold w2'; cbn; now rewrite Hsent1).
      assert (Hsl2 : sleeps w2' = S (sleeps w))
        by (unfold w2'; cbn; now rewrite Hsl1).
      specialize (IH Hst2 ltac:(lia) ltac:(lia)).
      clearbody w2'.
      destruct IH as (m & Hm & Hcase).
      exists (S m). split; [lia|].
      cbn [snapshots grow map].
      destruct (compute_loop env fuel h n_order (i + 1)
                  (push_next sequence i) w2') as [[final_sequence|] w'| |];
        try contradiction.
      * destruct Hcase as (-> & Hsl & Hs' & Hs).
        rewrite Hs, Hsent2, <- app_assoc. repeat split; auto; lia.
      * destruct Hcase as (Hsl & Hs' & Hs).
        rewrite Hs, Hsent2, <- app_assoc. repeat split; auto; lia.
Qed.

(** X2.  Whatever the environment does (cancellation requests at any
    time, a shutdown at any time), what the run of a goal sends is a
    truncation of its undisturbed run: the first [m] feedback messages of
    that run, for some [m <= order - 1], followed by nothing or by one
    result that carries the first [m + 2] elements of the full sequence
    under CANCELED or SUCCEEDED.  The worker has then slept [m] times. *)
Theorem every_run_truncates_the_undisturbed_run :
  forall (env : Env) (h : GoalHandle) (log : list LogRecord),
    order (get_goal h) <> 0 ->
    order (get_goal h) <= Int.max_signed ->
    exists (w' wq : World) (m : nat) (published : list (list Z))
           (final_sequence : list Z),
      compute env h (fresh log) = Done tt w' /\
      compute calm h (fresh log) = Done tt wq /\
      sent wq = map FeedbackMessage published ++
                [ResultMessage SUCCEEDED final_sequence] /\
      (m <= List.length published)%nat /\
      Z.of_nat (List.length published) = Z.max 0 (order (get_goal h) - 1) /\
      sleeps w' = m /\
      let partial := firstn (m + 2) final_sequence in
      sent w' = firstn m (sent wq) \/
      sent w' = firstn m (sent wq) ++ [ResultMessage CANCELED partial] \/
      sent w' = firstn m (sent wq) ++ [ResultMessage SUCCEEDED partial].
Proof.
  intros env h log Hnz Hfit.
  set (n := order (get_goal h)) in *.
  set (K := steps_of n).
  assert (Hq : compute calm h (fresh log) = Done tt (succeeded_world h log K))
    by (apply compute_quiet; auto).
  assert (Hfirst : forall m, (m <= K)%nat ->
            firstn m (sent (succeeded_world h log K)) =
            map FeedbackMessage (snapshots m 1 [0; 1])).
  { intros m Hm. cbn [sent succeeded_world].
    rewrite firstn_app, length_map, snapshots_length.
    replace (m - K)%nat with O by lia. cbn [firstn]. rewrite app_nil_r.
    rewrite firstn_map.
    replace K with (m + (K - m))%nat by lia.
    now rewrite snapshots_prefix. }
  assert (Hpart : forall m, (m <= K)%nat ->
            firstn (m + 2) (grow K 1 [0; 1]) = grow m 1 [0; 1]).
  { intros m Hm. rewrite <- (grow_prefix m K 1 [0; 1]) by assumption.
    f_equal. cbn [List.length]. lia. }
  enough (Hmain : exists w' m,
            compute env h (fresh log) = Done tt w' /\
            (m <= K)%nat /\ sleeps w' = m /\
            (sent w' = map FeedbackMessage (snapshots m 1 [0; 1]) \/
             sent w' = map FeedbackMessage (snapshots m 1 [0; 1]) ++
                       [ResultMessage CANCELED (grow m 1 [0; 1])] \/
             sent w' = map FeedbackMessage (snapshots m 1 [0; 1]) ++
                       [ResultMessage SUCCEEDED (grow m 1 [0; 1])])).
  { destruct Hmain as (w' & m & Hrun & HmK & Hsl & Hcase).
    exists w', (succeeded_world h log K), m, (snapshots K 1 [0; 1]),
      (grow K 1 [0; 1]).
    split; [exact Hrun|]. split; [exact Hq|]. split; [reflexivity|].
    rewrite snapshots_length.
    split; [exact HmK|]. split; [unfold K, steps_of; lia|].
    split; [exact Hsl|]. cbv zeta.
    rewrite Hfirst, Hpart by assumption. exact Hcase. }
  unfold compute. fold n.
  unfold bind at 1, RCLCPP_INFO at 1, RCLCPP_LOG at 1.
  replace (n =? 0) with false by (symmetry; apply Z.eqb_neq; exact Hnz).
  cbn [app]. unfold bind at 1.
  match goal with
  | |- context [compute_loop env ?f h n ?i ?s ?w] =>
      destruct (loop_is_a_prefix env h n Hfit f i s w eq_refl
                  ltac:(lia) ltac:(lia)) as (m & Hm & Hcase);
      destruct (compute_loop env f h n i s w) as [[final_sequence|] w1| |]
  end; try contradiction.
  all: assert (HmK : (m <= K)%nat) by (unfold K, steps_of; lia).
  all: cbn [sleeps sent fresh app Nat.add] in Hcase.
  2:{ destruct Hcase as (Hsl & Hst & Hs).
      exists w1, m. auto 6. }
  destruct Hcase as (-> & Hsl & Hst & Hs).
  unfold bind at 1, rclcpp_ok at 1.
  destruct (ok_answer env (ok_calls w1)).
  - unfold bind, succeed, terminal, RCLCPP_INFO, RCLCPP_LOG, ret.
    cbn [status count_ok]. rewrite Hst.
    eexists _, m. split; [reflexivity|].
    cbn [sent sleeps deliver count_ok]. rewrite Hs. auto 6.
  - unfold ret. eexists _, m. split; [reflexivity|].
    cbn [sent sleeps count_ok]. auto 6.
Qed.

Lemma every_run_truncates_the_undisturbed_run_witness :
  exists (w' wq : World) (m : nat),
    compute (cancel_before_poll 3) (handle_of 12) (fresh []) = Done tt w' /\
    compute calm (handle_of 12) (fresh []) = Done tt wq /\
    sleeps w' = m.
Proof.
  destruct (every_run_truncates_the_undisturbed_run (cancel_before_poll 3)
              (handle_of 12) [])
    as (w' & wq & m & published & final_sequence & Hrun & Hq & _ & _ & _
        & Hsl & _).
  - cbn [handle_of get_goal order]. lia.
  - cbn [handle_of get_goal order]. unfold Int.max_signed. lia.
  - exists w', wq, m. auto.
Defined.

(** ** A shutdown in the middle of a run *)

Lemma loop_stops_when_down env fuel h n_order i sequence w :
  ok_answer env (ok_calls w) = false ->
  compute_loop env fuel h n_order i sequence w =
  Done (Fallthrough sequence) (if i <? n_order then count_ok w else w).
Proof.
  intros Hdown.
  destruct fuel; cbn [compute_loop]; unfold bind, rclcpp_ok, ret;
    destruct (i <? n_order); rewrite ?Hdown; reflexivity.
Qed.

(** X3.  Let the substrate shut down, for good, after it has answered
    [n] liveness queries of the run, [n <= order - 1], with no cancellation
    request before.  Then the run sends exactly the first [n] feedback
    messages and nothing else: no result is sent and the goal is left
    executing.  With [n = order - 1] the whole sequence has been computed
    and published as feedback, and still no result is delivered. *)
Theorem shutdown_keeps_the_feedback_and_drops_the_result :
  forall (env : Env) (h : GoalHandle) (log : list LogRecord) (n : nat),
    1 <= order (get_goal h) ->
    order (get_goal h) <= Int.max_signed ->
    Z.of_nat n <= order (get_goal h) - 1 ->
    shuts_down_before env n ->
    (forall j, (j < n)%nat -> cancel_arrives env j = false) ->
    exists w',
      compute env h (fresh log) = Done tt w' /\
      status w' = EXECUTING /\
      sent w' = map FeedbackMessage (snapshots n 1 [0; 1]) /\
      sleeps w' = n /\
      last (snapshots n 1 [0; 1]) [0; 1] = grow n 1 [0; 1] /\
      List.length (grow n 1 [0; 1]) = (n + 2)%nat.
Proof.
  intros env h log n Hone Hfit Hn Hdown Hquiet.
  set (N := order (get_goal h)) in *.
  enough (Hmain : exists w',
            compute env h (fresh log) = Done tt w' /\
            status w' = EXECUTING /\
            sent w' = map FeedbackMessage (snapshots n 1 [0; 1]) /\
            sleeps w' = n).
  { destruct Hmain as (w' & Hrun & Hst & Hs & Hsl). exists w'.
    repeat split; auto; [apply snapshots_last|].
    rewrite grow_length. cbn [List.length]. lia. }
  unfold compute. fold N.
  unfold bind at 1, RCLCPP_INFO at 1, RCLCPP_LOG at 1.
  replace (N =? 0) with false by (symmetry; apply Z.eqb_neq; lia).
  cbn [app]. unfold bind at 1.
  replace (Z.to_nat N) with (n + (Z.to_nat N - n))%nat by lia.
  rewrite (loop_quiet_prefix env h N Hfit n);
    [ | intros j Hj; cbn [ok_calls fresh Nat.add]; rewrite Hdown;
        apply Nat.ltb_lt; exact Hj
      | intros j Hj; apply Hquiet; exact Hj
      | reflexivity | lia | lia ].
  rewrite loop_stops_when_down
    by (cbn [ok_calls quiet_steps fresh Nat.add]; rewrite Hdown;
        apply Nat.ltb_irrefl).
  unfold bind at 1, rclcpp_ok at 1.
  assert (Hlast : forall w, (n <= ok_calls w)%nat ->
            ok_answer env (ok_calls w) = false)
    by (intros w Hw; rewrite Hdown; apply Nat.ltb_ge; exact Hw).
  destruct (1 + Z.of_nat n <? N);
    rewrite Hlast by (cbn [ok_calls count_ok quiet_steps fresh Nat.add]; lia);
    unfold ret; (eexists; split; [reflexivity|]);
    cbn [status sent sleeps count_ok quiet_steps fresh app Nat.add]; auto.
Qed.

Lemma shutdown_keeps_the_feedback_and_drops_the_result_witness :
  exists w',
    compute (shutdown_before 4) (handle_of 5) (fresh []) = Done tt w' /\
    status w' = EXECUTING /\
    sent w' = [FeedbackMessage [0; 1; 1]; FeedbackMessage [0; 1; 1; 2];
               FeedbackMessage [0; 1; 1; 2; 3];
               FeedbackMessage [0; 1; 1; 2; 3; 5]].
Proof.
  destruct (shutdown_keeps_the_feedback_and_drops_the_result
              (shutdown_before 4) (handle_of 5) [] 4)
    as (w' & Hrun & Hst & Hs & _).
  - cbn [handle_of get_goal order]. lia.
  - cbn [handle_of get_goal order]. unfold Int.max_signed. lia.
  - cbn [handle_of get_goal order]. lia.
  - intros j. reflexivity.
  - intros j _. reflexivity.
  - exists w'. auto.
Defined.

(** * Properties of the parametric publisher *)

Lemma Int_wrap_range z : Int.in_range (Int.wrap z).
Proof.
  unfold Int.in_range, Int.wrap, Int.min_signed, Int.max_signed, Int.modulus.
  generalize (Z.mod_pos_bound (z - -2147483648) 4294967296 ltac:(lia)). lia.
Qed.

Lemma is_number_inv p :
  ParametricPub.is_number p = true ->
  exists value, p = ParametricPub.number value.
Proof.
  destruct p as [name value]. unfold ParametricPub.is_number.
  cbn [ParametricPub.get_name ParametricPub.get_type
       ParametricPub.get_parameter_value].
  intros H. apply andb_prop in H as [Hname Htype].
  apply String.eqb_eq in Hname. subst name.
  destruct value; try discriminate. eexists; reflexivity.
Qed.

Lemma param_clbk_loop_skip before : forall params res node,
  (forall p, In p before -> ParametricPub.is_number p = false) ->
  ParametricPub.param_clbk_loop (before ++ params) res node =
  ParametricPub.param_clbk_loop params res node.
Proof.
  induction before as [|q before IH]; intros params res node Hnone;
    [reflexivity|].
  cbn [app ParametricPub.param_clbk_loop].
  generalize (Hnone q (or_introl eq_refl)).
  unfold ParametricPub.is_number. intros ->.
  apply IH. intros p Hp. apply Hnone. now right.
Qed.

(** X5.  A request that holds no parameter named "number" of integer type
    (the empty request, a "number" of another type, parameters of other
    names) is refused with the reason "Invalid parameters"; the node is
    left as it was and nothing is logged. *)
Theorem param_clbk_refuses_a_request_without_number :
  forall (params : list ParametricPub.RclParameter) (node : ParametricPub.Node),
    (forall p, In p params -> ParametricPub.is_number p = false) ->
    ParametricPub.param_clbk params node =
    Some ({| ParametricPub.successful := false;
             ParametricPub.reason := "Invalid parameters" |}, node).
Proof.
  intros params node Hnone. unfold ParametricPub.param_clbk.
  rewrite <- (app_nil_r params).
  rewrite param_clbk_loop_skip by assumption. reflexivity.
Qed.

Lemma param_clbk_refuses_a_request_without_number_witness :
  ParametricPub.param_clbk
    [ {| ParametricPub.get_name := "number";
         ParametricPub.get_parameter_value := ParametricPub.StringValue "7" |};
      {| ParametricPub.get_name := "other";
         ParametricPub.get_parameter_value := ParametricPub.IntegerValue 7 |} ]
    sample_node =
  Some ({| ParametricPub.successful := false;
           ParametricPub.reason := "Invalid parameters" |}, sample_node).
Proof.
  apply param_clbk_refuses_a_request_without_number.
  intros p [<- | [<- | []]]; reflexivity.
Defined.

(** X6.  The first parameter named "number" of integer type decides the
    request, whatever precedes it (other parameters) and whatever follows
    it (even another "number").  If its value fits an [int] and is not 0
    the request succeeds with an empty reason, [pub_num_] becomes that
    value, and the request is logged once. *)
Theorem param_clbk_accepts_the_first_number :
  forall (before after : list ParametricPub.RclParameter) (value : Z)
         (node : ParametricPub.Node),
    (forall p, In p before -> ParametricPub.is_number p = false) ->
    Int.in_range value -> value <> 0 ->
    ParametricPub.param_clbk
      (before ++ ParametricPub.number value :: after) node =
    Some ({| ParametricPub.successful := true; ParametricPub.reason := "" |},
          {| ParametricPub.pub_num_ := value;
             ParametricPub.logged :=
               ParametricPub.logged node ++
               [("Requested parameter change to: %ld", value)];
             ParametricPub.published := ParametricPub.published node |}).
Proof.
  intros before after value node Hnone Hfit Hnz.
  unfold ParametricPub.param_clbk.
  rewrite param_clbk_loop_skip by assumption.
  cbn [ParametricPub.param_clbk_loop ParametricPub.number
       ParametricPub.get_name ParametricPub.get_type ParametricPub.as_int
       ParametricPub.get_parameter_value ParametricPub.type_eqb].
  rewrite String.eqb_refl. cbn [andb].
  rewrite Int_wrap_in_range by assumption.
  replace (value =? 0) with false by (symmetry; apply Z.eqb_neq; assumption).
  reflexivity.
Qed.

Lemma param_clbk_accepts_the_first_number_witness :
  option_map (fun r => ParametricPub.pub_num_ (snd r))
    (ParametricPub.param_clbk
       [ {| ParametricPub.get_name := "other";
            ParametricPub.get_parameter_value := ParametricPub.BoolValue true |};
         ParametricPub.number 42; ParametricPub.number 0 ]
       sample_node) = Some 42.
Proof.
  pose proof (param_clbk_accepts_the_first_number
                [ {| ParametricPub.get_name := "other";
                     ParametricPub.get_parameter_value :=
                       ParametricPub.BoolValue true |} ]
                [ ParametricPub.number 0 ] 42 sample_node) as H.
  cbn [app] in H. rewrite H.
  - reflexivity.
  - intros p [<- | []]. reflexivity.
  - unfold Int.in_range, Int.min_signed, Int.max_signed. lia.
  - lia.
Defined.

(** X7.  If the first "number" of a request is 0, the request is refused
    with the reason "Callback considers 0 invalid" and [pub_num_] keeps its
    value, even when a valid "number" follows in the same request; the
    request for 0 is logged all the same. *)
Theorem param_clbk_refuses_zero :
  forall (before after : list ParametricPub.RclParameter)
         (node : ParametricPub.Node),
    (forall p, In p before -> ParametricPub.is_number p = false) ->
    ParametricPub.param_clbk
      (before ++ ParametricPub.number 0 :: after) node =
    Some ({| ParametricPub.successful := false;
             ParametricPub.reason := "Callback considers 0 invalid" |},
          {| ParametricPub.pub_num_ := ParametricPub.pub_num_ node;
             ParametricPub.logged :=
               ParametricPub.logged node ++
               [("Requested parameter change to: %ld", 0)];
             ParametricPub.published := ParametricPub.published node |}).
Proof.
  intros before after node Hnone.
  unfold ParametricPub.param_clbk.
  rewrite param_clbk_loop_skip by assumption. reflexivity.
Qed.

Lemma param_clbk_refuses_zero_witness :
  option_map (fun r => ParametricPub.pub_num_ (snd r))
    (ParametricPub.param_clbk
       [ ParametricPub.number 0; ParametricPub.number 42 ] sample_node) =
  Some 1.
Proof.
  pose proof (param_clbk_refuses_zero [] [ ParametricPub.number 42 ]
                sample_node) as H.
  cbn [app] in H. rewrite H.
  - reflexivity.
  - intros p [].
Defined.

(** X8.  [param_clbk] always returns ([as_int()] is only called on an
    integer, so it never throws) and never publishes.  Its result is
    successful exactly when the reason is empty.  A refused request leaves
    [pub_num_] alone; an accepted one stores a value that fits an [int] and
    is not 0.  So once [pub_num_] differs from 0, no request makes it 0. *)
Theorem param_clbk_keeps_the_node_sound :
  forall (params : list ParametricPub.RclParameter) (node : ParametricPub.Node),
  exists res node',
    ParametricPub.param_clbk params node = Some (res, node') /\
    ParametricPub.published node' = ParametricPub.published node /\
    (ParametricPub.successful res = true <-> ParametricPub.reason res = "") /\
    (ParametricPub.successful res = false ->
     ParametricPub.pub_num_ node' = ParametricPub.pub_num_ node) /\
    (ParametricPub.successful res = true ->
     ParametricPub.pub_num_ node' <> 0 /\
     Int.in_range (ParametricPub.pub_num_ node')) /\
    (ParametricPub.pub_num_ node <> 0 -> ParametricPub.pub_num_ node' <> 0).
Proof.
  intros params node. unfold ParametricPub.param_clbk.
  induction params as [|p params IH].
  - eexists; eexists; split; [reflexivity|].
    cbn. repeat split; try discriminate; auto.
  - cbn [ParametricPub.param_clbk_loop].
    destruct ((ParametricPub.get_name p =? "number")%string &&
              ParametricPub.type_eqb (ParametricPub.get_type p)
                ParametricPub.PARAMETER_INTEGER) eqn:Hnum; [|exact IH].
    destruct (is_number_inv p Hnum) as (value & ->).
    cbn [ParametricPub.as_int ParametricPub.number
         ParametricPub.get_parameter_value].
    destruct (Int.wrap value =? 0) eqn:Hz;
      eexists; eexists; (split; [reflexivity|]); cbn;
      repeat split; try discriminate; auto.
    + apply Z.eqb_neq in Hz. exact Hz.
    + apply Int_wrap_range.
    + apply Int_wrap_range.
    + intros _. apply Z.eqb_neq in Hz. exact Hz.
Qed.

(** X9.  What [pub_routine] publishes after a request: after a refused
    request, what it would have published before; after an accepted one,
    the (narrowed) value of a "number" that was in the request.  In both
    cases the value published is the one logged by [pub_routine]. *)
Theorem pub_routine_publishes_the_number_in_force :
  forall (params : list ParametricPub.RclParameter)
         (node node' : ParametricPub.Node)
         (res : ParametricPub.SetParametersResult),
    ParametricPub.param_clbk params node = Some (res, node') ->
    (ParametricPub.successful res = false ->
     ParametricPub.published (ParametricPub.pub_routine node') =
     ParametricPub.published (ParametricPub.pub_routine node)) /\
    (ParametricPub.successful res = true ->
     exists value,
       In (ParametricPub.number value) params /\
       ParametricPub.published (ParametricPub.pub_routine node') =
       ParametricPub.published node ++ [Int.wrap value]) /\
    ParametricPub.logged (ParametricPub.pub_routine node') =
    ParametricPub.logged node' ++
    [("Published: %ld", ParametricPub.pub_num_ node')].
Proof.
  intros params node node' res. unfold ParametricPub.param_clbk.
  induction params as [|p params IH].
  - cbn. intros Heq. injection Heq as <- <-.
    repeat split; auto. discriminate.
  - cbn [ParametricPub.param_clbk_loop].
    destruct ((ParametricPub.get_name p =? "number")%string &&
              ParametricPub.type_eqb (ParametricPub.get_type p)
                ParametricPub.PARAMETER_INTEGER) eqn:Hnum.
    + destruct (is_number_inv p Hnum) as (value & ->).
      cbn [ParametricPub.as_int ParametricPub.number
           ParametricPub.get_parameter_value].
      destruct (Int.wrap value =? 0);
        intros Heq; injection Heq as <- <-; cbn;
        repeat split; auto; try discriminate.
      intros _. exists value. split; [now left | reflexivity].
    + intros Heq. destruct (IH Heq) as (Hno & Hyes & Hlog).
      repeat split; auto.
      intros Hs. destruct (Hyes Hs) as (value & Hin & Hpub).
      exists value. split; [now right | exact Hpub].
Qed.

Lemma pub_routine_publishes_the_number_in_force_witness :
  exists node',
    ParametricPub.param_clbk [ ParametricPub.number 42 ] sample_node =
      Some ({| ParametricPub.successful := true;
               ParametricPub.reason := "" |}, node') /\
    ParametricPub.logged (ParametricPub.pub_routine node') =
    ParametricPub.logged node' ++ [("Published: %ld", 42)].
Proof.
  eexists. split; [reflexivity|].
  apply (pub_routine_publishes_the_number_in_force
           [ ParametricPub.number 42 ] sample_node _ _ eq_refl).
Defined.

(** * Properties of the counting publisher *)

Lemma fired_state bits n :
  Pub.pub_cnt_ (Pub.fired bits n Pub.constructed) =
    (N.of_nat n mod 2 ^ bits)%N /\
  Pub.published (Pub.fired bits n Pub.constructed) =
    map (fun k => Pub.hello (N.of_nat k mod 2 ^ bits)%N) (seq 0 n) /\
  Pub.logged (Pub.fired bits n Pub.constructed) =
    ("Publisher initialized", None) ::
    map (fun k => ("Published message %lu",
                   Some ((N.of_nat k + 1) mod 2 ^ bits)%N))
        (seq 0 n).
Proof.
  induction n as [|n (Hc & Hp & Hl)].
  - cbn [Pub.fired Pub.constructed Pub.pub_cnt_ Pub.published Pub.logged
         seq map]. rewrite N.Div0.mod_0_l. auto.
  - cbn [Pub.fired]. unfold Pub.pub_timer_callback.
    cbn [Pub.pub_cnt_ Pub.published Pub.logged].
    rewrite Hc, Hp, Hl, !seq_S, !map_app. cbn [map Nat.add].
    rewrite N.Div0.add_mod_idemp_l.
    repeat split.
    f_equal. lia.
Qed.

(** X10.  After the timer of a freshly constructed node has fired [n]
    times, the node has published "Hello 0.", "Hello 1.", ... in this
    order, one message per tick, the counter wrapping around at [2 ^ bits];
    each tick logged the counter after its increment, and the counter now
    holds [n] modulo [2 ^ bits]. *)
Theorem timer_callbacks_count_up_from_zero :
  forall (bits : N) (n : nat),
    Pub.published (Pub.fired bits n Pub.constructed) =
      map (fun k => Pub.hello (N.of_nat k mod 2 ^ bits)%N) (seq 0 n) /\
    Pub.logged (Pub.fired bits n Pub.constructed) =
      ("Publisher initialized", None) ::
      map (fun k => ("Published message %lu",
                     Some ((N.of_nat k + 1) mod 2 ^ bits)%N))
          (seq 0 n) /\
    Pub.pub_cnt_ (Pub.fired bits n Pub.constructed) =
      (N.of_nat n mod 2 ^ bits)%N /\
    List.length (Pub.published (Pub.fired bits n Pub.constructed)) = n.
Proof.
  intros bits n. destruct (fired_state bits n) as (Hc & Hp & Hl).
  repeat split; auto.
  now rewrite Hp, length_map, length_seq.
Qed.

Lemma append_dot_inj : forall s1 s2 : string,
  String.append s1 "." = String.append s2 "." -> s1 = s2.
Proof.
  induction s1 as [|c s1 IH]; intros [|d s2] Heq; cbn in Heq.
  - reflexivity.
  - injection Heq as _ Heq. destruct s2; discriminate.
  - injection Heq as _ Heq. destruct s1; discriminate.
  - injection Heq as -> Heq. f_equal. now apply IH.
Qed.

Lemma to_string_inj a b : Pub.to_string a = Pub.to_string b -> a = b.
Proof.
  unfold Pub.to_string. intros Heq.
  apply DecimalN.Unsigned.to_uint_inj.
  assert (Hs : Some (N.to_uint a) = Some (N.to_uint b))
    by (rewrite <- !NilEmpty.usu; now rewrite Heq).
  now injection Hs.
Qed.

Lemma hello_inj a b : Pub.hello a = Pub.hello b -> a = b.
Proof.
  unfold Pub.hello. intros Heq. cbn in Heq.
  injection Heq as Heq. now apply to_string_inj, append_dot_inj.
Qed.

(** X11.  The payload tells the ticks apart: as long as the counter has
    not wrapped around (at most [2 ^ bits] ticks), no two messages
    published by the node are equal. *)
Theorem published_messages_are_pairwise_distinct :
  forall (bits : N) (n : nat),
    (N.of_nat n <= 2 ^ bits)%N ->
    NoDup (Pub.published (Pub.fired bits n Pub.constructed)).
Proof.
  intros bits n Hn. destruct (fired_state bits n) as (_ & -> & _).
  apply NoDup_map_NoDup_ForallPairs; [|apply seq_NoDup].
  intros x y Hx Hy Heq. apply in_seq in Hx, Hy.
  apply hello_inj in Heq.
  rewrite !N.mod_small in Heq by lia. lia.
Qed.

Lemma published_messages_are_pairwise_distinct_witness :
  NoDup (Pub.published (Pub.fired 64 3 Pub.constructed)).
Proof.
  apply published_messages_are_pairwise_distinct.
  cbv. discriminate.
Defined.
